(** * MMT command-line engine builder: [cli/mmt/engine.py]

    A shallow embedding of the resumable training pipeline of
    [cli/mmt/engine.py] (Python 2): the step wrapper [EngineBuilder.Step],
    the checkpoint-backed [__Schedule], the driver [EngineBuilder._build],
    the elapsed-time printer, the hardware check and [Engine.load].

    Conventions.
    - Python [int]s are [Z]; [str]s are [string]; lists are [list].
    - A call that may raise returns [res A]: [Ok a] or [Raise e].
    - The file at [checkpoint_path] is a field of the modelled world, so
      that [store], [load] and the purge of the temporary directory act on
      one shared cell.
    - Collaborators that live outside this file ([BilingualCorpus.list],
      [nvidia_smi], the Java mains, [minidom.parse], [os.path.isfile]) are
      inputs of the model: fields of a record or of the world.
    - A step function acts on the bag of arguments it is given and on files
      of its own; it does not touch the checkpoint file.
    - Opening the checkpoint file for writing and opening the log succeed:
      the folders they live in are made by [_build] and by the steps.
    - The clock is an input: the host gives the whole seconds measured
      around the call of each step. *)

From stdpp Require Import gmap strings list fin_maps pretty sorting.

Open Scope Z_scope.

(** ** Python exceptions and results *)

Inductive exn : Type :=
  | IllegalArgumentException (msg : string)
  | CorpusNotFoundInFolderException (msg : string)
  | HWConstraintViolated (cause : string)
  | KeyError (key : string)
  | ValueError
  | TypeError
  | AttributeError
  | IndexError
  | ExpatError
  | StopIteration
  | AssertionError
  | ShellError (detail : string).

Inductive res (A : Type) : Type :=
  | Ok (a : A)
  | Raise (e : exn).
Arguments Ok {A} a.
Arguments Raise {A} e.

#[global] Instance res_ret : MRet res := λ A a, Ok a.
#[global] Instance res_bind : MBind res := λ A B k r,
  match r with
  | Ok a => k a
  | Raise e => Raise e
  end.

Definition is_ok {A : Type} (r : res A) : bool :=
  match r with Ok _ => true | Raise _ => false end.

(** ** Strings *)

(** [needle in hay] on Python strings: substring test. *)
Definition str_in (needle hay : string) : bool :=
  match String.index 0 needle hay with
  | Some _ => true
  | None => false
  end.

(** ['%d' % n] *)
Definition fmt_d (n : Z) : string := pretty n.

(** [sep.join(parts)] *)
Definition str_join (sep : string) (parts : list string) : string :=
  String.concat sep parts.

Definition chr (n : nat) : string := String (Ascii.ascii_of_nat n) EmptyString.
Definition dquote : string := chr 34.
Definition squote : string := chr 39.
Definition backslash : string := chr 92.
Definition newline : string := chr 10.
Definition esc : string := chr 27.

(** [s.ljust(width)] *)
Definition ljust (s : string) (width : nat) : string :=
  s +:+ String.concat "" (replicate (width - String.length s)%nat " ").

(** [s.strip('_')] *)
Fixpoint lstrip_underscore (s : string) : string :=
  match s with
  | String c rest =>
      if decide (Ascii.nat_of_ascii c = 95%nat) then lstrip_underscore rest else s
  | EmptyString => s
  end.
Definition strip_underscore (s : string) : string :=
  String.rev (lstrip_underscore (String.rev (lstrip_underscore s))).

(** [repr(s)] of a Python 2 byte string. The quote is the single quote,
    unless the string holds a single quote and no double quote. *)
Definition hex_digit (n : nat) : string :=
  String.substring n 1 "0123456789abcdef".

Definition repr_char (quote : string) (c : Ascii.ascii) : string :=
  let s := String c EmptyString in
  let n := Ascii.nat_of_ascii c in
  if decide (s = quote ∨ s = backslash) then backslash +:+ s
  else if decide (n = 9%nat) then backslash +:+ "t"
  else if decide (n = 10%nat) then backslash +:+ "n"
  else if decide (n = 13%nat) then backslash +:+ "r"
  else if decide (n < 32 ∨ 127 ≤ n)%nat
       then backslash +:+ "x" +:+ hex_digit (n / 16) +:+ hex_digit (n mod 16)
  else s.

Definition py_repr (s : string) : string :=
  let quote :=
    if str_in squote s && negb (str_in dquote s) then dquote else squote in
  quote +:+ String.concat "" (repr_char quote <$> String.list_ascii_of_string s) +:+ quote.

(** [str(l)] of a list of strings. *)
Definition py_str_list (l : list string) : string :=
  "[" +:+ str_join ", " (py_repr <$> l) +:+ "]".

(** ** [os.path] (POSIX) *)

Module os.

Definition sep : string := "/".

Module path.

Definition ends_with_sep (p : string) : bool :=
  match String.length p with
  | O => false
  | S n => if decide (String.substring n 1 p = sep) then true else false
  end.

(** One step of [posixpath.join]: an absolute component restarts the
    path, otherwise it is appended after exactly one separator. *)
Definition join2 (a b : string) : string :=
  if String.prefix sep b then b
  else if decide (a = "") then b
  else if ends_with_sep a then a +:+ b
  else a +:+ sep +:+ b.

Definition join (a : string) (ps : list string) : string :=
  foldl join2 a ps.

End path.

End os.

(** ** Elapsed time: [EngineBuilder._pretty_print_time]

    The argument is the whole number of seconds, after [int(elapsed)]. On
    Python 2 integers [/] is floor division. The three tests are strict. *)

Module PrettyTime.

Definition _pretty_print_time_parts (elapsed : Z) : list string :=
  let parts : list string := [] in
  let '(elapsed, parts) :=
    if 86400 <? elapsed then
      let d := elapsed / 86400 in
      (elapsed - d * 86400, parts ++ [fmt_d d +:+ "d"])
    else (elapsed, parts) in
  let '(elapsed, parts) :=
    if 3600 <? elapsed then
      let h := elapsed / 3600 in
      (elapsed - h * 3600, parts ++ [fmt_d h +:+ "h"])
    else (elapsed, parts) in
  let '(elapsed, parts) :=
    if 60 <? elapsed then
      let m := elapsed / 60 in
      (elapsed - m * 60, parts ++ [fmt_d m +:+ "m"])
    else (elapsed, parts) in
  parts ++ [fmt_d elapsed +:+ "s"].

Definition _pretty_print_time (elapsed : Z) : string :=
  str_join " " (_pretty_print_time_parts elapsed).

(** The rule in words: a unit is printed when what is left strictly
    exceeds the unit, and what is left is then reduced modulo the unit. *)
Definition unit_part (size : Z) (suffix : string) (left : Z) : list string :=
  if decide (size < left) then [fmt_d (left / size) +:+ suffix] else [].

Definition unit_rest (size : Z) (left : Z) : Z :=
  if decide (size < left) then left `mod` size else left.

Definition after_days (e : Z) : Z := unit_rest 86400 e.
Definition after_hours (e : Z) : Z := unit_rest 3600 (after_days e).
Definition after_minutes (e : Z) : Z := unit_rest 60 (after_hours e).

End PrettyTime.

(** ** [xml.dom.minidom], as far as [Engine.load] uses it *)

Module minidom.

#[local] Set Warnings "-register-all".

Inductive Element : Type :=
  | Elem (tagName : string) (attributes : list (string * string))
         (childNodes : list Element).

Definition tagName (e : Element) : string :=
  match e with Elem t _ _ => t end.
Definition attributes (e : Element) : list (string * string) :=
  match e with Elem _ a _ => a end.
Definition childNodes (e : Element) : list Element :=
  match e with Elem _ _ c => c end.

(** All descendants, in document order, the element itself excluded. *)
Fixpoint descendants (e : Element) : list Element :=
  match e with
  | Elem _ _ cs =>
      (fix go (l : list Element) : list Element :=
         match l with
         | [] => []
         | c :: l => c :: descendants c ++ go l
         end) cs
  end.

Definition getElementsByTagName (e : Element) (name : string) : list Element :=
  filter (λ d, name = "*" ∨ tagName d = name) (descendants e).

(** [getAttribute] answers the empty string for a missing attribute. *)
Definition getAttribute (e : Element) (attname : string) : string :=
  match list_find (λ kv, kv.1 = attname) (attributes e) with
  | Some (_, (_, v)) => v
  | None => ""
  end.

End minidom.

(** ** The installation: [cli.ENGINES_DIR], [cli.RUNTIME_DIR] and the disk

    [os.path.isfile] and [minidom.parse(path).documentElement] read the
    disk; both are fields here. [parse] raises for a file that is not
    well-formed XML. *)

Record Cli : Type := {
  ENGINES_DIR : string;
  RUNTIME_DIR : string;
  isfile : string → bool;
  parse : string → res minidom.Element
}.

(** Disk accesses, recorded in the order in which they happen. *)
Inductive Access : Type :=
  | AIsfile (path : string)
  | AParse (path : string).

(** ** [class Engine] *)

Module Engine.

Record t : Type := {
  name : string;
  languages : list (string * string);
  config_path : string;
  path : string;
  data_path : string;
  models_path : string;
  runtime_path : string;
  logs_path : string;
  temp_path : string
}.

Definition _get_config_path (cli : Cli) (name : string) : string :=
  os.path.join (ENGINES_DIR cli) [name; "engine.xconf"].

(** [Engine(name, languages)] for a name that is a string. *)
Definition __init__ (cli : Cli) (name : string)
    (languages : list (string * string)) : t :=
  let path := os.path.join (ENGINES_DIR cli) [name] in
  let runtime_path := os.path.join (RUNTIME_DIR cli) [name] in
  {| name := name;
     languages := languages;
     config_path := _get_config_path cli name;
     path := path;
     data_path := os.path.join path ["data"];
     models_path := os.path.join path ["models"];
     runtime_path := runtime_path;
     logs_path := os.path.join runtime_path ["logs"];
     temp_path := os.path.join runtime_path ["tmp"] |}.

(** The nested helper of [load]; [root] is [None] when the previous
    lookup found nothing, and an attribute access on [None] raises. *)
Definition _get_child (root : option minidom.Element) (child_name : string)
    : res (option minidom.Element) :=
  match root with
  | None => Raise AttributeError
  | Some root => Ok (head (minidom.getElementsByTagName root child_name))
  end.

Definition pair_languages (pair_el : minidom.Element) : string * string :=
  (minidom.getAttribute pair_el "source", minidom.getAttribute pair_el "target").

(** What [load] does once the configuration file is known to exist. *)
Definition read_config (cli : Cli) (name config_path : string) : res t :=
  config_root ← parse cli config_path;
  engine_el ← _get_child (Some config_root) "engine";
  lang_el ← _get_child engine_el "languages";
  match lang_el with
  | Some lang_el =>
      Ok (__init__ cli name
            (pair_languages <$> minidom.getElementsByTagName lang_el "pair"))
  | None =>
      match engine_el with
      | None => Raise AttributeError
      | Some engine_el =>
          Ok (__init__ cli name
                [(minidom.getAttribute engine_el "source-language",
                  minidom.getAttribute engine_el "target-language")])
      end
  end.

(** [Engine.load(name)]: the result and the disk accesses made. *)
Definition load (cli : Cli) (name : string) : res t * list Access :=
  if str_in os.sep name then
    (Raise (IllegalArgumentException
              ("Invalid engine name: " +:+ dquote +:+ name +:+ dquote)), [])
  else
    let config_path := _get_config_path cli name in
    if negb (isfile cli config_path) then
      (Raise (IllegalArgumentException
                ("Engine " +:+ squote +:+ name +:+ squote +:+ " not found")),
       [AIsfile config_path])
    else
      (read_config cli name config_path,
       [AIsfile config_path; AParse config_path]).

End Engine.

(** ** Corpora, keyword values and the collaborators of the builder *)

Record BilingualCorpus : Type := {
  corpus_name : string;
  get_folder : string
}.

(** Values that travel as keyword arguments: [skip] and [delete_on_exit]
    are booleans, [log] is the open log stream. *)
Inductive pyval : Type :=
  | VBool (b : bool)
  | VFile (path mode : string).

#[global] Instance pyval_eq_dec : EqDecision pyval.
Proof. solve_decision. Defined.

Abbreviation Kwargs := (gmap string pyval).

(** [EngineBuilder.__Args]: an attribute bag; a missing attribute reads as
    [None]. *)
Abbreviation Args := (gmap string (list BilingualCorpus)).

(** Python truth value of an attribute of the bag: [None] and the empty
    list are false. *)
Definition truthy (v : option (list BilingualCorpus)) : bool :=
  match v with
  | Some (_ :: _) => true
  | _ => false
  end.

(** The host: the installation, the GPU inventory, corpus discovery, the
    external tools behind [TMCleaner.clean], [TrainingPreprocessor.process]
    and [FastAlign.build], and the wall-clock seconds measured around the
    call of a step. *)
Record Host : Type := {
  cli : Cli;
  list_gpus : list Z;
  get_ram : Z → Z;
  BilingualCorpus_list : string → string → list string → list BilingualCorpus;
  TMCleaner_clean :
    string → string → list BilingualCorpus → string → res (list BilingualCorpus);
  TrainingPreprocessor_process :
    string → string → list BilingualCorpus → string → option string →
    res (list BilingualCorpus);
  FastAlign_build : string → string → string → list BilingualCorpus → res unit;
  elapsed_seconds : string → Z
}.

(** The same host with another GPU inventory. *)
Definition with_gpus (h : Host) (gpus : list Z) (ram : Z → Z) : Host :=
  {| cli := cli h; list_gpus := gpus; get_ram := ram;
     BilingualCorpus_list := BilingualCorpus_list h;
     TMCleaner_clean := TMCleaner_clean h;
     TrainingPreprocessor_process := TrainingPreprocessor_process h;
     FastAlign_build := FastAlign_build h;
     elapsed_seconds := elapsed_seconds h |}.

(** The fields of an [EngineBuilder] that a step function reads through
    [self]. *)
Record Self : Type := {
  source_lang : string;
  target_lang : string;
  roots : list string;
  _engine : Engine.t;
  _delete_on_exit : bool;
  _split_train : bool;
  _temp_dir : option string
}.

Definition set_temp_dir (self : Self) (d : string) : Self :=
  {| source_lang := source_lang self; target_lang := target_lang self;
     roots := roots self; _engine := _engine self;
     _delete_on_exit := _delete_on_exit self;
     _split_train := _split_train self; _temp_dir := Some d |}.

(** ** [EngineBuilder.Step]: the decorator and the step object [_Inner] *)

Module Step.

Record _Inner : Type := {
  id : string;
  name : string;
  _optional : bool;
  _hidden : bool;
  (** [inspect.getargspec(self._f)[0]]: the declared parameter names *)
  argnames : list string;
  (** the call [self._f(self, args, **kwargs)] of the decorated function,
      the binding of its arguments included *)
  _f : Self → Args → Kwargs → res Args
}.

(** When Python accepts the call [f(self, args, **kwargs)] of a function
    declared with the parameters [argnames], the last [defaults] of them
    with a default value, and no variadic parameter: the two positional
    arguments bind the first two parameters, every keyword names a
    parameter other than these two, and every parameter without a default
    is given. *)
Definition accepts (argnames : list string) (defaults : nat)
    (kwargs : Kwargs) : Prop :=
  (2 ≤ length argnames)%nat
  ∧ map_Forall (λ k _, k ∈ argnames ∧ k ∉ take 2 argnames) kwargs
  ∧ Forall (λ p, is_Some (kwargs !! p))
      (drop 2 (take (length argnames - defaults) argnames)).

#[global] Instance accepts_dec argnames defaults kwargs :
  Decision (accepts argnames defaults kwargs).
Proof. unfold accepts. apply _. Defined.

(** The call of such a function with body [body]: a call that Python does
    not accept raises [TypeError] before the body runs. *)
Definition call_function (argnames : list string) (defaults : nat)
    (body : Self → Args → Kwargs → res Args)
    (self : Self) (args : Args) (kwargs : Kwargs) : res Args :=
  if decide (accepts argnames defaults kwargs) then body self args kwargs
  else Raise TypeError.

(** [@Step(name, optional, hidden)] applied to the function [fname],
    declared with the parameters [argnames], the last [defaults] of them
    with a default value, and with the body [f]. *)
Definition decorate (name : string) (optional hidden : bool)
    (fname : string) (argnames : list string) (defaults : nat)
    (f : Self → Args → Kwargs → res Args) : _Inner :=
  {| id := strip_underscore fname; name := name;
     _optional := optional; _hidden := hidden;
     argnames := argnames; _f := call_function argnames defaults f |}.

Definition is_optional (st : _Inner) : bool := _optional st.
Definition is_hidden (st : _Inner) : bool := _hidden st.

(** [del kwargs[key]] *)
Definition py_del (kwargs : Kwargs) (key : string) : res Kwargs :=
  match kwargs !! key with
  | Some _ => Ok (delete key kwargs)
  | None => Raise (KeyError key)
  end.

Definition del_unless_declared (names : list string) (key : string)
    (kwargs : Kwargs) : res Kwargs :=
  if decide (key ∉ names) then py_del kwargs key else Ok kwargs.

(** The three deletions of [_Inner.__call__], in source order. *)
Definition forwarded (st : _Inner) (kwargs : Kwargs) : res Kwargs :=
  let names := argnames st in
  kwargs ← del_unless_declared names "delete_on_exit" kwargs;
  kwargs ← del_unless_declared names "log" kwargs;
  del_unless_declared names "skip" kwargs.

(** The call of [self._f] with the positional and the remaining keyword
    arguments: the function takes no variadic keywords, so a keyword
    outside its declared names is a [TypeError] whatever the function;
    the other refusals of a call are those of [_f] itself. *)
Definition apply_f (st : _Inner) (self : Self) (args : Args)
    (kwargs : Kwargs) : res Args :=
  if decide (map_Forall (λ k _, k ∈ argnames st) kwargs)
  then _f st self args kwargs
  else Raise TypeError.

Definition __call__ (st : _Inner) (self : Self) (args : Args)
    (kwargs : Kwargs) : res Args :=
  kwargs ← forwarded st kwargs;
  apply_f st self args kwargs.

End Step.

(** ** The checkpoint file

    What [json.load] makes of the file at [checkpoint_path]: a list of step
    identifiers as [store] writes it, or text that is not JSON. (A JSON
    document of another shape is outside the model.) A missing file is
    [None] in the world. *)

Inductive FileContent : Type :=
  | NotJson
  | Json (steps : list string).

#[global] Instance FileContent_eq_dec : EqDecision FileContent.
Proof. solve_decision. Defined.

(** ** [EngineBuilder.__Schedule] *)

Module Schedule.

Record t : Type := {
  _plan : list Step._Inner;
  _scheduled_steps : list string;
  _passed_steps : list string
}.

Definition set_passed (s : t) (passed : list string) : t :=
  {| _plan := _plan s; _scheduled_steps := _scheduled_steps s;
     _passed_steps := passed |}.

Definition all_steps (s : t) : list string := Step.id <$> _plan s.

Definition __init__ (plan : list Step._Inner)
    (filtered_steps : option (list string)) : res t :=
  let all_steps := Step.id <$> plan in
  match filtered_steps with
  | Some filtered =>
      let unknown_steps := filter (λ step, step ∉ all_steps) filtered in
      if decide (0 < length unknown_steps)%nat then
        Raise (IllegalArgumentException
                 ("Unknown training steps: " +:+ py_str_list unknown_steps))
      else
        Ok {| _plan := plan; _scheduled_steps := filtered;
              _passed_steps := [] |}
  | None =>
      Ok {| _plan := plan; _scheduled_steps := all_steps;
            _passed_steps := [] |}
  end.

Definition __len__ (s : t) : nat := length (_scheduled_steps s).

(** The iterator object built by [__iter__]. *)
Record __Inner : Type := {
  it_plan : list Step._Inner;
  _idx : nat
}.

Definition next (it : __Inner) : res (Step._Inner * __Inner) :=
  if decide (_idx it < length (it_plan it))%nat then
    let it' := {| it_plan := it_plan it; _idx := _idx it + 1 |} in
    match it_plan it' !! (_idx it' - 1)%nat with
    | Some el => Ok (el, it')
    | None => Raise IndexError
    end
  else Raise StopIteration.

Definition selected (s : t) (el : Step._Inner) : Prop :=
  Step.id el ∈ _scheduled_steps s ∨ ¬ Step.is_optional el.

#[global] Instance selected_dec s el : Decision (selected s el).
Proof. unfold selected. apply _. Defined.

Definition __iter__ (s : t) : __Inner :=
  {| it_plan := filter (selected s) (_plan s); _idx := 0 |}.

(** What a [for] loop receives from an iterator: [next] is called until
    it raises. *)
Fixpoint drain (fuel : nat) (it : __Inner) : list Step._Inner :=
  match fuel with
  | O => []
  | S fuel =>
      match next it with
      | Ok (el, it') => el :: drain fuel it'
      | Raise _ => []
      end
  end.

Definition iterate (s : t) : list Step._Inner :=
  let it := __iter__ s in
  drain (S (length (it_plan it))) it.

Definition visible_steps (s : t) : list string :=
  Step.id <$>
    filter (λ x, Step.id x ∈ _scheduled_steps s ∧ ¬ Step.is_hidden x) (_plan s).

(** [store] replaces the file by the JSON text of [_passed_steps]; the
    file is opened for writing in a folder that exists. *)
Definition store (s : t) (file : option FileContent) : option FileContent :=
  Some (Json (_passed_steps s)).

(** [load]: a file that cannot be opened is an [IOError], which is
    caught; text that is not JSON makes [json.load] raise [ValueError],
    which is not. *)
Definition load (s : t) (file : option FileContent) : res t :=
  match file with
  | None => Ok (set_passed s [])
  | Some NotJson => Raise ValueError
  | Some (Json steps) => Ok (set_passed s steps)
  end.

Definition step_completed (s : t) (step : string) : t :=
  set_passed s (_passed_steps s ++ [step]).

Definition is_completed (s : t) (step : string) : bool :=
  bool_decide (step ∈ _passed_steps s).

End Schedule.

(** ** [class EngineBuilder] *)

Module EngineBuilder.

Definition _MB : Z := 1024 * 1024.
Definition _GB : Z := 1024 * 1024 * 1024.

Record t : Type := {
  self : Self;
  _schedule : Schedule.t
}.

(** What a run leaves behind, oldest first. [ECall] and [EStore] are not
    output of the program: they record the keyword arguments given to a
    step object and the list written to the checkpoint file. *)
Inductive Event : Type :=
  | EPrint (line : string)
  | ELog (msg : string)
  | ELogException (e : exn)
  | ECall (step : string) (kwargs : Kwargs)
  | EStore (steps : list string)
  | ELogClosed.

(** The world: the file [checkpoint.json] inside the temporary folder
    [training] of the engine, and the events so far. *)
Record World : Type := {
  checkpoint : option FileContent;
  events : list Event
}.

Record Run : Type := {
  builder : t;
  world : World
}.

(** Statements of a method: they read and update the builder and the
    world, and either return or raise. What was done before an exception
    stays done. *)
Definition M (A : Type) : Type := Run → res A * Run.

#[global] Instance M_ret : MRet M := λ A a r, (Ok a, r).
#[global] Instance M_bind : MBind M := λ A B k m r,
  match m r with
  | (Ok a, r') => k a r'
  | (Raise e, r') => (Raise e, r')
  end.

Definition raise {A : Type} (e : exn) : M A := λ r, (Raise e, r).

Definition lift {A : Type} (x : res A) : M A := λ r, (x, r).

Definition get_self : M Self := λ r, (Ok (self (builder r)), r).

Definition get_schedule : M Schedule.t :=
  λ r, (Ok (_schedule (builder r)), r).

Definition put_self (s : Self) : M unit := λ r,
  (Ok (), {| builder := {| self := s; _schedule := _schedule (builder r) |};
             world := world r |}).

Definition put_schedule (s : Schedule.t) : M unit := λ r,
  (Ok (), {| builder := {| self := self (builder r); _schedule := s |};
             world := world r |}).

Definition get_file : M (option FileContent) :=
  λ r, (Ok (checkpoint (world r)), r).

Definition put_file (f : option FileContent) : M unit := λ r,
  (Ok (), {| builder := builder r;
             world := {| checkpoint := f; events := events (world r) |} |}).

Definition emit (ev : Event) : M unit := λ r,
  (Ok (), {| builder := builder r;
             world := {| checkpoint := checkpoint (world r);
                         events := events (world r) ++ [ev] |} |}).

Definition print (line : string) : M unit := emit (EPrint line).

Definition when (b : bool) (m : M unit) : M unit :=
  if b then m else mret ().

(** [try: body / except Exception: handler; raise] and
    [try: body / finally: fin] *)
Definition try_except {A : Type} (body : M A) (handler : exn → M A) : M A :=
  λ r, match body r with
       | (Ok a, r') => (Ok a, r')
       | (Raise e, r') => handler e r'
       end.

Definition try_finally {A : Type} (body : M A) (fin : M unit) : M A :=
  λ r, match body r with
       | (x, r') =>
           match fin r' with
           | (Ok _, r'') => (x, r'')
           | (Raise e, r'') => (Raise e, r'')
           end
       end.

(** [for x in it: body], with the loop variables in [acc]. *)
Fixpoint for_each {S : Type} (fuel : nat) (it : Schedule.__Inner)
    (body : Step._Inner → S → M S) (acc : S) : M S :=
  match fuel with
  | O => mret acc
  | Datatypes.S fuel =>
      match Schedule.next it with
      | Ok (x, it') => acc' ← body x acc; for_each fuel it' body acc'
      | Raise StopIteration => mret acc
      | Raise e => raise e
      end
  end.

(** The loop makes one call of [next] per element and one more that
    ends it. *)
Definition for_in {S : Type} (it : Schedule.__Inner)
    (body : Step._Inner → S → M S) (acc : S) : M S :=
  for_each (Datatypes.S (length (Schedule.it_plan it))) it body acc.

(** The same loop over a list. *)
Fixpoint for_list {S : Type} (l : list Step._Inner)
    (body : Step._Inner → S → M S) (acc : S) : M S :=
  match l with
  | [] => mret acc
  | x :: l => acc' ← body x acc; for_list l body acc'
  end.

(** *** Methods of the schedule, on the builder's schedule *)

Definition schedule_store : M unit :=
  s ← get_schedule;
  f ← get_file;
  put_file (Schedule.store s f);;
  emit (EStore (Schedule._passed_steps s)).

Definition schedule_load : M unit :=
  s ← get_schedule;
  f ← get_file;
  s' ← lift (Schedule.load s f);
  put_schedule s'.

Definition schedule_step_completed (step : string) : M unit :=
  s ← get_schedule;
  put_schedule (Schedule.step_completed s step).

(** *** Methods of the engine that touch the temporary folder

    The checkpoint file lives in the folder [training] under the temporary
    path of the engine. [get_tempdir] with [ensure] removes and recreates
    the folder it names, and [clear_tempdir] removes the folder it names
    (the whole temporary path without a name): the file goes with the
    folder [training]. *)

Definition Engine_get_tempdir (name : string) (ensure : bool) : M string :=
  me ← get_self;
  let folder := os.path.join (Engine.temp_path (_engine me)) [name] in
  when (ensure && bool_decide (name = "training")) (put_file None);;
  mret folder.

Definition Engine_get_logfile (e : Engine.t) (name : string) : string :=
  os.path.join (Engine.logs_path e) [name +:+ ".log"].

Definition Engine_clear_tempdir (subdir : option string) : M unit :=
  when (bool_decide (subdir = None ∨ subdir = Some "training")) (put_file None).

(** *** [_check_constraints] *)

Definition no_gpu_cause : string :=
  "No GPU for Neural engine training, the process will take very long time to complete.".

(** The RAM is a number of bytes, an integer: [/] is floor division and
    ['%.f'] prints the quotient without decimals. *)
Definition low_ram_cause (gpu gpus_ram recommended_gpu_ram : Z) : string :=
  "The RAM of GPU " +:+ fmt_d gpu +:+ " is only " +:+ fmt_d (gpus_ram / _GB)
    +:+ "G. More than " +:+ fmt_d (recommended_gpu_ram / _GB)
    +:+ "G of RAM recommended for each GPU.".

Fixpoint check_each_gpu (h : Host) (recommended_gpu_ram : Z) (gpus : list Z)
    : res unit :=
  match gpus with
  | [] => Ok ()
  | gpu :: gpus =>
      let gpus_ram := get_ram h gpu in
      if decide (gpus_ram < recommended_gpu_ram) then
        Raise (HWConstraintViolated (low_ram_cause gpu gpus_ram recommended_gpu_ram))
      else check_each_gpu h recommended_gpu_ram gpus
  end.

Definition _check_constraints (h : Host) : res unit :=
  let gpus := list_gpus h in
  if decide (length gpus = 0%nat) then
    Raise (HWConstraintViolated no_gpu_cause)
  else
    let recommended_gpu_ram := 8 * _GB in
    check_each_gpu h recommended_gpu_ram gpus.

(** *** The training step functions *)

Definition _get_tempdir (me : Self) (name : string) : res string :=
  match _temp_dir me with
  | None => Raise AttributeError
  | Some d => Ok (os.path.join d [name])
  end.

(** The truth value of a keyword parameter whose default is [False]. *)
Definition kw_true (kwargs : Kwargs) (key : string) : bool :=
  match kwargs !! key with
  | Some (VBool b) => b
  | Some (VFile _ _) => true
  | None => false
  end.

Definition _clean_tms (h : Host) (me : Self) (args : Args) (kwargs : Kwargs)
    : res Args :=
  folder ← _get_tempdir me "clean_corpora";
  if kw_true kwargs "skip" then
    Ok (<["corpora" :=
            BilingualCorpus_list h (source_lang me) (target_lang me) [folder]]> args)
  else
    match args !! "corpora" with
    | None => Raise TypeError
    | Some corpora =>
        cleaned ← TMCleaner_clean h (source_lang me) (target_lang me) corpora folder;
        Ok (<["corpora" := cleaned]> args)
    end.

Definition _preprocess (h : Host) (me : Self) (args : Args) (kwargs : Kwargs)
    : res Args :=
  preprocessed_folder ← _get_tempdir me "preprocessed_corpora";
  if kw_true kwargs "skip" then
    Ok (<["processed_corpora" :=
            BilingualCorpus_list h (source_lang me) (target_lang me)
              [preprocessed_folder]]> args)
  else
    if negb (truthy (args !! "corpora")) then
      Raise (CorpusNotFoundInFolderException
               ("Could not find any valid " +:+ source_lang me +:+ " > "
                  +:+ target_lang me +:+ " segments in your input."))
    else
      let data_path :=
        if _split_train me then Some (Engine.data_path (_engine me)) else None in
      processed ← TrainingPreprocessor_process h (source_lang me) (target_lang me)
                    (default [] (args !! "corpora")) preprocessed_folder data_path;
      Ok (<["processed_corpora" := processed]> args).

Definition _train_aligner (h : Host) (me : Self) (args : Args) (kwargs : Kwargs)
    : res Args :=
  if negb (kw_true kwargs "skip") then
    match filter (λ v, truthy v) [args !! "processed_corpora"; args !! "corpora"] with
    | Some corpora :: _ =>
        _ ← FastAlign_build h
              (os.path.join (Engine.models_path (_engine me)) ["aligner"])
              (source_lang me) (target_lang me) corpora;
        Ok args
    | _ => Raise IndexError
    end
  else Ok args.

(** [_write_config] writes the engine configuration file; neither the
    bag of arguments nor the checkpoint changes. *)
Definition _write_config (me : Self) (args : Args) (kwargs : Kwargs) : res Args :=
  Ok args.

Definition _build_schedule (h : Host) : list Step._Inner :=
  [ Step.decorate "Corpora cleaning" true false
      "_clean_tms" ["self"; "args"; "skip"; "log"] 2 (_clean_tms h);
    Step.decorate "Corpora pre-processing" true false
      "_preprocess" ["self"; "args"; "skip"; "log"] 2 (_preprocess h);
    Step.decorate "Aligner training" true false
      "_train_aligner" ["self"; "args"; "skip"; "log"] 2 (_train_aligner h);
    Step.decorate "Writing config" false true
      "_write_config" ["self"; "_"] 0 _write_config ].

(** *** The constructor *)

Definition with_plan (h : Host) (plan : list Step._Inner)
    (engine_name source_lang target_lang : string) (roots : list string)
    (debug : bool) (steps : option (list string)) (split_train : bool) : res t :=
  let me :=
    {| source_lang := source_lang; target_lang := target_lang; roots := roots;
       _engine := Engine.__init__ (cli h) engine_name [(source_lang, target_lang)];
       _delete_on_exit := negb debug; _split_train := split_train;
       _temp_dir := None |} in
  schedule ← Schedule.__init__ plan steps;
  Ok {| self := me; _schedule := schedule |}.

Definition __init__ (h : Host) :=
  with_plan h (_build_schedule h).

(** *** [_build], [build] and [resume] *)

Definition log_line_len : nat := 70.

(** The keyword arguments of the call [method(self, args, skip=...,
    log=..., delete_on_exit=...)]. *)
Definition step_kwargs (skip : bool) (log_stream : pyval)
    (delete_on_exit : bool) : Kwargs :=
  <["skip" := VBool skip]>
    (<["log" := log_stream]>
       (<["delete_on_exit" := VBool delete_on_exit]> ∅)).

Definition info_line (step_index : Z) (steps_count : nat) (name : string) : string :=
  ljust ("INFO: (" +:+ fmt_d step_index +:+ " of " +:+ fmt_d (Z.of_nat steps_count)
           +:+ ") " +:+ name +:+ "... ") log_line_len.

Definition started_msg (id : string) (step_index : Z) (total : nat) : string :=
  "Training step " +:+ dquote +:+ id +:+ dquote +:+ " (" +:+ fmt_d step_index
    +:+ "/" +:+ fmt_d (Z.of_nat total) +:+ ") started".

Definition completed_msg (id elapsed_time_str : string) : string :=
  "Training step " +:+ dquote +:+ id +:+ dquote +:+ " completed in "
    +:+ elapsed_time_str.

Definition warning_line (cause : string) : string :=
  esc +:+ "[91mWARNING" +:+ esc +:+ "[0m: " +:+ cause +:+ newline.

(** The body of the loop over the schedule; the loop variables are
    [step_index] and the bag [args]. *)
Definition run_step (h : Host) (log_stream : pyval) (steps_count : nat)
    (method : Step._Inner) (acc : Z * Args) : M (Z * Args) :=
  let step_index := acc.1 in
  let args := acc.2 in
  when (negb (Step.is_hidden method))
    (print (info_line step_index steps_count (Step.name method)));;
  s ← get_schedule;
  let skip := Schedule.is_completed s (Step.id method) in
  emit (ELog (started_msg (Step.id method) step_index (Schedule.__len__ s)));;
  me ← get_self;
  let kwargs := step_kwargs skip log_stream (_delete_on_exit me) in
  emit (ECall (Step.id method) kwargs);;
  args ← lift (Step.__call__ method me args kwargs);
  let elapsed_time_str :=
    PrettyTime._pretty_print_time (elapsed_seconds h (Step.id method)) in
  when (negb (Step.is_hidden method))
    (print ("DONE (in " +:+ elapsed_time_str +:+ ")"));;
  emit (ELog (completed_msg (Step.id method) elapsed_time_str));;
  schedule_step_completed (Step.id method);;
  schedule_store;;
  mret (step_index + 1, args).

Definition check_and_warn (h : Host) : M unit :=
  match _check_constraints h with
  | Ok _ => mret ()
  | Raise (HWConstraintViolated cause) => print (warning_line cause)
  | Raise e => raise e
  end.

Definition started_banner : string :=
  newline +:+ "=========== TRAINING STARTED ===========" +:+ newline.
Definition success_banner : string :=
  newline +:+ "=========== TRAINING SUCCESS ===========" +:+ newline.

Definition training (h : Host)
    (corpora : list BilingualCorpus) (log_stream : pyval)
    (steps_count : nat) : M unit :=
  me ← get_self;
  emit (ELog ("Training started: engine=" +:+ Engine.name (_engine me)
                +:+ ", corpora=" +:+ fmt_d (Z.of_nat (length corpora))
                +:+ ", lang_pair=" +:+ source_lang me +:+ "-" +:+ target_lang me));;
  print started_banner;;
  print ("ENGINE:  " +:+ Engine.name (_engine me));;
  print ("CORPORA: " +:+ fmt_d (Z.of_nat (length corpora)) +:+ " corpora");;
  print ("LANGS:   " +:+ source_lang me +:+ " > " +:+ target_lang me);;
  print "";;
  check_and_warn h;;
  let args : Args := {[ "corpora" := corpora ]} in
  s ← get_schedule;
  _ ← for_in (Schedule.__iter__ s) (run_step h log_stream steps_count) (1, args);
  print success_banner;;
  print "You can now start, stop or check the status of the server with command:";;
  print (chr 9 +:+ "./mmt start|stop|status "
           +:+ (if decide (Engine.name (_engine me) = "default") then ""
                else "-e " +:+ Engine.name (_engine me)));;
  print "";;
  when (_delete_on_exit me) (Engine_clear_tempdir (Some "training")).

Definition _build (h : Host) (resume : bool) : M unit :=
  temp_dir ← Engine_get_tempdir "training" (negb resume);
  me ← get_self;
  put_self (set_temp_dir me temp_dir);;
  (if resume then schedule_load else schedule_store);;
  me ← get_self;
  let corpora :=
    BilingualCorpus_list h (source_lang me) (target_lang me) (roots me) in
  if decide (length corpora = 0%nat) then
    raise (CorpusNotFoundInFolderException
             ("Could not find " +:+ source_lang me +:+ " > " +:+ target_lang me
                +:+ " corpora in path " +:+ str_join ", " (roots me)))
  else
    let log_file := Engine_get_logfile (_engine me) "training" in
    let log_stream := VFile log_file (if resume then "ab" else "wb") in
    s ← get_schedule;
    let steps_count := length (Schedule.visible_steps s) in
    try_finally
      (try_except
         (training h corpora log_stream steps_count)
         (λ e, emit (ELogException e);; raise e))
      (emit ELogClosed).

Definition build (h : Host) : M unit := _build h false.
Definition resume (h : Host) : M unit := _build h true.

(** *** Running a method and reading the outcome *)

Definition run {A : Type} (m : M A) (b : t) (w : World) : res A * Run :=
  m {| builder := b; world := w |}.

Definition calls_of (evs : list Event) : list (string * Kwargs) :=
  omap (λ ev, match ev with ECall id kw => Some (id, kw) | _ => None end) evs.

Definition stores_of (evs : list Event) : list (list string) :=
  omap (λ ev, match ev with EStore l => Some l | _ => None end) evs.

Definition warnings_of (evs : list Event) : list string :=
  omap (λ ev, match ev with
              | EPrint line =>
                  if String.prefix (esc +:+ "[91mWARNING") line then Some line
                  else None
              | _ => None end) evs.

(** The events that a run added to those of the world it started in. *)
Definition new_events (w : World) (r : Run) : list Event :=
  drop (length (events w)) (events (world r)).

Definition passed_of (r : Run) : list string :=
  Schedule._passed_steps (_schedule (builder r)).

Definition file_of (r : Run) : option FileContent := checkpoint (world r).

End EngineBuilder.

(** ** A small installation to run the model on *)

Module Demo.

Definition config : minidom.Element :=
  minidom.Elem "node" []
    [minidom.Elem "engine"
       [("source-language", "en"); ("target-language", "fr")] []].

Definition demo_cli : Cli :=
  {| ENGINES_DIR := "/opt/mmt/engines";
     RUNTIME_DIR := "/opt/mmt/runtime";
     isfile := λ p, bool_decide (p = "/opt/mmt/engines/default/engine.xconf");
     parse := λ p, Ok config |}.

Definition corpus_in (folder : string) : BilingualCorpus :=
  {| corpus_name := "europarl"; get_folder := folder |}.

(** GPU 0 has 16 GiB, every other GPU 4 GiB. *)
Definition host (gpus : list Z) : Host :=
  {| cli := demo_cli;
     list_gpus := gpus;
     get_ram := λ gpu, if decide (gpu = 0) then 16 * EngineBuilder._GB
                       else 4 * EngineBuilder._GB;
     BilingualCorpus_list := λ _ _ roots, corpus_in <$> roots;
     TMCleaner_clean := λ _ _ _ out, Ok [corpus_in out];
     TrainingPreprocessor_process := λ _ _ _ out _, Ok [corpus_in out];
     FastAlign_build := λ _ _ _ _, Ok ();
     elapsed_seconds := λ _, 125 |}.

(** The same host with an aligner that fails. *)
Definition failing_host (gpus : list Z) : Host :=
  {| cli := demo_cli;
     list_gpus := gpus;
     get_ram := get_ram (host gpus);
     BilingualCorpus_list := BilingualCorpus_list (host gpus);
     TMCleaner_clean := TMCleaner_clean (host gpus);
     TrainingPreprocessor_process := TrainingPreprocessor_process (host gpus);
     FastAlign_build := λ _ _ _ _, Raise (ShellError "fa_build");
     elapsed_seconds := elapsed_seconds (host gpus) |}.

Definition empty_world : EngineBuilder.World :=
  {| EngineBuilder.checkpoint := None; EngineBuilder.events := [] |}.

Definition world_with (f : FileContent) : EngineBuilder.World :=
  {| EngineBuilder.checkpoint := Some f; EngineBuilder.events := [] |}.

(** [EngineBuilder('default', 'en', 'fr', ['/data'], debug, steps)] *)
Definition new_builder (h : Host) (debug : bool) (steps : option (list string))
    : res EngineBuilder.t :=
  EngineBuilder.__init__ h "default" "en" "fr" ["/data"] debug steps true.

(** Construct, then run [build] or [resume] from the given world. *)
Definition construct_and_run (h : Host) (debug : bool)
    (steps : option (list string)) (resume : bool) (w : EngineBuilder.World)
    : option (res unit * EngineBuilder.Run) :=
  match new_builder h debug steps with
  | Ok b => Some (EngineBuilder.run (EngineBuilder._build h resume) b w)
  | Raise _ => None
  end.

Definition outcome (x : option (res unit * EngineBuilder.Run))
    : option (res unit * option FileContent * list string
              * list (string * list (string * pyval))) :=
  (λ p, (p.1, EngineBuilder.file_of p.2, EngineBuilder.passed_of p.2,
         (λ c, (c.1, map_to_list c.2)) <$>
           EngineBuilder.calls_of (EngineBuilder.events (EngineBuilder.world p.2))))
  <$> x.

(** The builder that [new_builder] returns when no subset is requested. *)
Definition fresh_builder (h : Host) (debug : bool) : EngineBuilder.t :=
  {| EngineBuilder.self :=
       {| source_lang := "en"; target_lang := "fr"; roots := ["/data"];
          _engine := Engine.__init__ (cli h) "default" [("en", "fr")];
          _delete_on_exit := negb debug; _split_train := true;
          _temp_dir := None |};
     EngineBuilder._schedule :=
       {| Schedule._plan := EngineBuilder._build_schedule h;
          Schedule._scheduled_steps :=
            Step.id <$> EngineBuilder._build_schedule h;
          Schedule._passed_steps := [] |} |}.

Definition all_ids : list string :=
  ["clean_tms"; "preprocess"; "train_aligner"; "write_config"].

(** A two-step plan in which the same function is registered twice. *)
Definition twice : list Step._Inner :=
  [ Step.decorate "First" true false "_work" ["self"; "args"; "skip"] 1
      EngineBuilder._write_config;
    Step.decorate "Second" true false "_work" ["self"; "args"; "skip"] 1
      EngineBuilder._write_config ].

End Demo.

(** ** What a run is expected to leave behind *)

Module Expected.

(** The calls of the loop over the steps [l], when [passed] is the
    completed list before the first of them and every step returns. *)
Fixpoint calls (log : pyval) (doe : bool) (l : list Step._Inner)
    (passed : list string) : list (string * Kwargs) :=
  match l with
  | [] => []
  | m :: l =>
      (Step.id m,
       EngineBuilder.step_kwargs (bool_decide (Step.id m ∈ passed)) log doe)
        :: calls log doe l (passed ++ [Step.id m])
  end.

(** The lists written to the checkpoint file by the same loop. *)
Fixpoint stores (l : list Step._Inner) (passed : list string)
    : list (list string) :=
  match l with
  | [] => []
  | m :: l => (passed ++ [Step.id m]) :: stores l (passed ++ [Step.id m])
  end.

(** The events of one turn of the loop, before and after the call. *)
Definition before_call (log : pyval) (steps_count : nat) (m : Step._Inner)
    (step_index : Z) (me : Self) (s : Schedule.t) : list EngineBuilder.Event :=
  (if Step.is_hidden m then []
   else [EngineBuilder.EPrint
           (EngineBuilder.info_line step_index steps_count (Step.name m))])
  ++ [EngineBuilder.ELog
        (EngineBuilder.started_msg (Step.id m) step_index (Schedule.__len__ s));
      EngineBuilder.ECall (Step.id m)
        (EngineBuilder.step_kwargs
           (Schedule.is_completed s (Step.id m)) log (_delete_on_exit me))].

Definition after_call (h : Host) (m : Step._Inner) (s : Schedule.t)
    : list EngineBuilder.Event :=
  let elapsed_time_str :=
    PrettyTime._pretty_print_time (elapsed_seconds h (Step.id m)) in
  (if Step.is_hidden m then []
   else [EngineBuilder.EPrint ("DONE (in " +:+ elapsed_time_str +:+ ")")])
  ++ [EngineBuilder.ELog (EngineBuilder.completed_msg (Step.id m) elapsed_time_str);
      EngineBuilder.EStore (Schedule._passed_steps s ++ [Step.id m])].

(** The events of [_build] around the loop. *)
Definition prelude (me : Self) (corpora : list BilingualCorpus)
    : list EngineBuilder.Event :=
  [EngineBuilder.ELog
     ("Training started: engine=" +:+ Engine.name (_engine me)
        +:+ ", corpora=" +:+ fmt_d (Z.of_nat (length corpora))
        +:+ ", lang_pair=" +:+ source_lang me +:+ "-" +:+ target_lang me);
   EngineBuilder.EPrint EngineBuilder.started_banner;
   EngineBuilder.EPrint ("ENGINE:  " +:+ Engine.name (_engine me));
   EngineBuilder.EPrint
     ("CORPORA: " +:+ fmt_d (Z.of_nat (length corpora)) +:+ " corpora");
   EngineBuilder.EPrint
     ("LANGS:   " +:+ source_lang me +:+ " > " +:+ target_lang me);
   EngineBuilder.EPrint EmptyString].

Definition warning (h : Host) : list EngineBuilder.Event :=
  match EngineBuilder._check_constraints h with
  | Raise (HWConstraintViolated cause) =>
      [EngineBuilder.EPrint (EngineBuilder.warning_line cause)]
  | _ => []
  end.

Definition success (me : Self) : list EngineBuilder.Event :=
  [EngineBuilder.EPrint EngineBuilder.success_banner;
   EngineBuilder.EPrint
     "You can now start, stop or check the status of the server with command:";
   EngineBuilder.EPrint
     (chr 9 +:+ "./mmt start|stop|status "
        +:+ (if decide (Engine.name (_engine me) = "default") then EmptyString
             else "-e " +:+ Engine.name (_engine me)));
   EngineBuilder.EPrint EmptyString].

(** The completed list with which the loop of [_build] begins. A load
    that raises leaves the list as it was. *)
Definition start_passed (resume : bool) (s0 : Schedule.t)
    (file : option FileContent) : list string :=
  if resume then
    match file with
    | None => []
    | Some (Json steps) => steps
    | Some NotJson => Schedule._passed_steps s0
    end
  else Schedule._passed_steps s0.

(** Whether [_build] gets as far as the hardware check: the load did not
    raise and corpora were found. *)
Definition reached (h : Host) (resume : bool) (me : Self)
    (file : option FileContent) : bool :=
  negb (resume && bool_decide (file = Some NotJson))
  && negb (bool_decide
             (length (BilingualCorpus_list h (source_lang me) (target_lang me)
                        (roots me)) = 0%nat)).

Definition log_stream (resume : bool) (me : Self) : pyval :=
  VFile (EngineBuilder.Engine_get_logfile (_engine me) "training")
        (if resume then "ab" else "wb").

Import EngineBuilder.

(** What [_build] has done when the loop begins: the temporary folder and
    the checkpoint are set up, and the schedule is loaded on a resume. *)
Definition at_loop (resume : bool) (r : EngineBuilder.Run) (s1 : Schedule.t)
    : EngineBuilder.Run :=
  let me0 := self (builder r) in
  let s0 := _schedule (builder r) in
  {| builder :=
       {| self := set_temp_dir me0
                    (os.path.join (Engine.temp_path (_engine me0)) ["training"]);
          _schedule := s1 |};
     world :=
       if resume then world r
       else {| checkpoint := Some (Json (Schedule._passed_steps s0));
               events := events (world r) ++ [EStore (Schedule._passed_steps s0)] |} |}.

Definition closing (x : res unit * EngineBuilder.Run)
    : res unit * EngineBuilder.Run :=
  match x with
  | (Ok _, r2) =>
      (Ok (), {| builder := builder r2;
                 world := {| checkpoint := checkpoint (world r2);
                             events := events (world r2) ++ [ELogClosed] |} |})
  | (Raise e, r2) =>
      (Raise e, {| builder := builder r2;
                   world := {| checkpoint := checkpoint (world r2);
                               events := events (world r2)
                                           ++ [ELogException e; ELogClosed] |} |})
  end.

Definition put_events (r : Run) (evs : list Event) : Run :=
  {| builder := builder r;
     world := {| checkpoint := checkpoint (world r); events := evs |} |}.

End Expected.

(** ** The handlers that return

    The reading of the specification with which the checkpoint is
    compared. The steps are called in order, each on the bag that the step
    before it left and with [skip] telling whether its identifier is in the
    completed list of that moment; a step completes when its call returns,
    and the first call that raises ends the run. [returned] lists the steps
    that complete. [marks] keeps of a run its calls and its writes of the
    checkpoint file, in the order in which they happened, and [in_turn] is
    the trace in which every step is called and then, before the next call,
    the completed list with its identifier appended is written. *)

Module Handlers.

Fixpoint returned (me : Self) (log : pyval) (passed : list string)
    (args : Args) (steps : list Step._Inner) : list Step._Inner :=
  match steps with
  | [] => []
  | m :: steps =>
      match Step.__call__ m me args
              (EngineBuilder.step_kwargs (bool_decide (Step.id m ∈ passed))
                 log (_delete_on_exit me)) with
      | Ok args' => m :: returned me log (passed ++ [Step.id m]) args' steps
      | Raise _ => []
      end
  end.

Inductive Mark : Type :=
  | Called (id : string)
  | Stored (steps : list string).

Definition marks (evs : list EngineBuilder.Event) : list Mark :=
  omap (λ ev, match ev with
              | EngineBuilder.ECall id _ => Some (Called id)
              | EngineBuilder.EStore l => Some (Stored l)
              | _ => None
              end) evs.

Fixpoint in_turn (passed : list string) (ids : list string) : list Mark :=
  match ids with
  | [] => []
  | id :: ids =>
      Called id :: Stored (passed ++ [id]) :: in_turn (passed ++ [id]) ids
  end.

End Handlers.

(** ** More of the demonstration installation *)

Module DemoMore.

(** A host on which the search for corpora finds nothing. *)
Definition barren_host : Host :=
  {| cli := Demo.demo_cli;
     list_gpus := [0];
     get_ram := get_ram (Demo.host [0]);
     BilingualCorpus_list := λ _ _ _, [];
     TMCleaner_clean := TMCleaner_clean (Demo.host [0]);
     TrainingPreprocessor_process := TrainingPreprocessor_process (Demo.host [0]);
     FastAlign_build := FastAlign_build (Demo.host [0]);
     elapsed_seconds := elapsed_seconds (Demo.host [0]) |}.

End DemoMore.

(** ** Reading aids for the step object and the time printer *)

Module StepMore.


(** A keyword that the function does not declare and that the caller did
    not give: its deletion fails. *)
Definition lacking (st : Step._Inner) (kwargs : Kwargs) (key : string) : Prop :=
  (key ∉ Step.argnames st) ∧ (kwargs !! key = None).

#[global] Instance lacking_dec st kwargs key : Decision (lacking st kwargs key).
Proof. unfold lacking. apply _. Defined.

End StepMore.

Module TimeUnits.

(** The number printed for a unit: the quotient when what is left exceeds
    the unit, and nothing (zero) otherwise. *)
Definition unit_count (size left : Z) : Z :=
  if decide (size < left) then left / size else 0.

Definition days (e : Z) : Z := unit_count 86400 e.
Definition hours (e : Z) : Z := unit_count 3600 (PrettyTime.after_days e).
Definition minutes (e : Z) : Z := unit_count 60 (PrettyTime.after_hours e).
Definition seconds (e : Z) : Z := PrettyTime.after_minutes e.

Definition shown (count : Z) (suffix : string) : list string :=
  if decide (count = 0) then [] else [fmt_d count +:+ suffix].

End TimeUnits.

(** ** [class FastAlign]

    [cli.BIN_DIR] is an argument of the constructor. [build] is modelled
    with the effects it has on the disk and on the shell, in the order in
    which they happen: [shutil.rmtree(..., ignore_errors=True)] and
    [osutils.makedirs(..., exist_ok=True)] are taken to succeed,
    [osutils.shell_exec] is an argument and may raise. Assertions are
    enabled, as they are unless the interpreter runs with [-O]. *)

Module FastAlign.

(** [s.split('-')[0]]: what stands before the first dash, the whole string
    when it has none. The dash is character 45. *)
Fixpoint before_dash (s : string) : string :=
  match s with
  | EmptyString => EmptyString
  | String c rest =>
      if decide (Ascii.nat_of_ascii c = 45%nat) then EmptyString
      else String c (before_dash rest)
  end.

Record t : Type := {
  _model : string;
  _source_lang : string;
  _target_lang : string;
  _build_bin : string;
  _align_bin : string;
  _export_bin : string
}.

Definition __init__ (BIN_DIR model source_lang target_lang : string) : t :=
  {| _model := os.path.join model
                 [before_dash source_lang +:+ "__"
                    +:+ before_dash target_lang +:+ ".mdl"];
     _source_lang := source_lang;
     _target_lang := target_lang;
     _build_bin := os.path.join BIN_DIR ["fa_build"];
     _align_bin := os.path.join BIN_DIR ["fa_align"];
     _export_bin := os.path.join BIN_DIR ["fa_export"] |}.

Inductive Effect : Type :=
  | Rmtree (path : string)
  | Makedirs (path : string)
  | ShellExec (command : list string).

Definition command_for (self : t) (source_path : string) : list string :=
  [_build_bin self; "-s"; _source_lang self; "-t"; _target_lang self;
   "-i"; source_path; "-m"; _model self; "-I"; "4"].

Definition build (shell_exec : list string → res unit) (self : t)
    (corpora : list BilingualCorpus) : res unit * list Effect :=
  let prepared := [Rmtree (_model self); Makedirs (_model self)] in
  let source_path : gset string := list_to_set (get_folder <$> corpora) in
  if decide (size source_path = 1%nat) then
    match elements source_path with
    | source_path :: _ =>
        let command := command_for self source_path in
        (shell_exec command, prepared ++ [ShellExec command])
    | [] => (Raise (KeyError "pop from an empty set"), prepared)
    end
  else (Raise AssertionError, prepared).

End FastAlign.

(** ** [Engine.list] and [Engine.exists]

    [listdir] is what [os.listdir(cli.ENGINES_DIR)] returns. [sorted]
    orders Python 2 strings byte by byte, which is [String.le]. *)

Definition Engine_list (cli : Cli) (listdir : list string) : list string :=
  merge_sort String.le
    (filter (λ name, isfile cli (Engine._get_config_path cli name) = true)
       listdir).

Definition Engine_exists (cli : Cli) (self : Engine.t) : bool :=
  isfile cli (Engine.config_path self).

Module PathShape.

(** A directory as a prefix of the paths below it: nothing for the empty
    string, and exactly one separator between it and what follows. *)
Definition dir_prefix (d : string) : string :=
  if decide (d = "") then ""
  else if os.path.ends_with_sep d then d
  else d +:+ os.sep.

End PathShape.

(** ** [class TrainingPreprocessor]

    [mmt_javamain] (of the package [cli]) turns a main class and its
    arguments into a command; it and [osutils.shell_exec] are arguments of
    [process], as is [BilingualCorpus.list]. Python leaves the order in
    which a set is walked unspecified; the model walks it in the order of
    [elements]. [process] answers its result and the commands it ran. *)

Module TrainingPreprocessor.

Definition DEV_FOLDER_NAME : string := "dev".
Definition TEST_FOLDER_NAME : string := "test".

Record t : Type := {
  _source_lang : string;
  _target_lang : string;
  _java_main : string
}.

Definition __init__ (source_lang target_lang : string) : t :=
  {| _source_lang := source_lang;
     _target_lang := target_lang;
     _java_main := "eu.modernmt.cli.TrainingPipelineMain" |}.

Definition input_roots (corpora : list BilingualCorpus) : list string :=
  elements (list_to_set (get_folder <$> corpora) : gset string).

Definition process_args (self : t) (corpora : list BilingualCorpus)
    (output_path : string) (data_path : option string) : list string :=
  ["-s"; _source_lang self; "-t"; _target_lang self;
   "--output"; output_path; "--input"]
  ++ input_roots corpora
  ++ match data_path with
     | Some data_path =>
         ["--dev"; os.path.join data_path [DEV_FOLDER_NAME];
          "--test"; os.path.join data_path [TEST_FOLDER_NAME]]
     | None => []
     end.

Definition process (mmt_javamain : string → list string → list string)
    (shell_exec : list string → res unit)
    (BilingualCorpus_list : string → string → list string → list BilingualCorpus)
    (self : t) (corpora : list BilingualCorpus) (output_path : string)
    (data_path : option string)
    : res (list BilingualCorpus) * list (list string) :=
  let command :=
    mmt_javamain (_java_main self)
      (process_args self corpora output_path data_path) in
  match shell_exec command with
  | Ok _ =>
      (Ok (BilingualCorpus_list (_source_lang self) (_target_lang self)
             [output_path]),
       [command])
  | Raise e => (Raise e, [command])
  end.

End TrainingPreprocessor.

(** * Properties *)

(** ** The elapsed-time printer *)

Section PrettyTimeFacts.
Import PrettyTime.

Lemma unit_split (size left : Z) :
  0 < size → left - left / size * size = left `mod` size.
Proof. intros Hs. rewrite Z.mod_eq by lia. lia. Qed.

Lemma parts_by_rule (e : Z) :
  _pretty_print_time_parts e =
    unit_part 86400 "d" e
      ++ unit_part 3600 "h" (after_days e)
      ++ unit_part 60 "m" (after_hours e)
      ++ [fmt_d (after_minutes e) +:+ "s"].
Proof.
  unfold _pretty_print_time_parts, after_minutes, after_hours, after_days,
    unit_part, unit_rest.
  destruct (Z.ltb_spec 86400 e) as [Hd|Hd]; cbn beta iota zeta;
    rewrite ?unit_split by lia;
    (destruct (decide (86400 < e)) as [_|?]; [|lia]) ||
    (destruct (decide (86400 < e)) as [?|_]; [lia|]).
  all: match goal with
       | |- context [3600 <? ?r] =>
           destruct (Z.ltb_spec 3600 r) as [Hh|Hh]; cbn beta iota zeta;
           rewrite ?unit_split by lia;
           (destruct (decide (3600 < r)) as [_|?]; [|lia]) ||
           (destruct (decide (3600 < r)) as [?|_]; [lia|])
       end.
  all: match goal with
       | |- context [60 <? ?r] =>
           destruct (Z.ltb_spec 60 r) as [Hm|Hm]; cbn beta iota zeta;
           rewrite ?unit_split by lia;
           (destruct (decide (60 < r)) as [_|?]; [|lia]) ||
           (destruct (decide (60 < r)) as [?|_]; [lia|])
       end.
  all: reflexivity.
Qed.

Lemma unit_rest_le (size left : Z) : 0 < size → unit_rest size left ≤ size.
Proof.
  intros Hs. unfold unit_rest. case_decide; [|lia].
  pose proof (Z.mod_pos_bound left size Hs). lia.
Qed.

End PrettyTimeFacts.

(** C8, as the code has it. The printer follows the strict rule: days are
    printed exactly when the seconds exceed 86400, hours exactly when what
    is left exceeds 3600, minutes exactly when what is left exceeds 60, the
    seconds always come last, and every printed unit leaves its remainder
    to the next. So 45 gives 45s, 125 gives 2m 5s, 3725 gives 1h 2m 5s, and
    90000, which leaves 3600 after the day, gives 1d 60m 0s. *)
Theorem C8_pretty_print_time_rule (e : Z) :
  PrettyTime._pretty_print_time e =
    str_join " "
      (PrettyTime.unit_part 86400 "d" e
         ++ PrettyTime.unit_part 3600 "h" (PrettyTime.after_days e)
         ++ PrettyTime.unit_part 60 "m" (PrettyTime.after_hours e)
         ++ [fmt_d (PrettyTime.after_minutes e) +:+ "s"])
  ∧ PrettyTime.after_minutes e ≤ 60
  ∧ PrettyTime._pretty_print_time 45 = "45s"
  ∧ PrettyTime._pretty_print_time 125 = "2m 5s"
  ∧ PrettyTime._pretty_print_time 3725 = "1h 2m 5s"
  ∧ PrettyTime._pretty_print_time 90000 = "1d 60m 0s"
  ∧ PrettyTime._pretty_print_time 60 = "60s"
  ∧ PrettyTime._pretty_print_time 3600 = "60m 0s"
  ∧ PrettyTime._pretty_print_time 86400 = "24h 0s".
Proof.
  split; [|split].
  - unfold PrettyTime._pretty_print_time. by rewrite parts_by_rule.
  - apply unit_rest_le. lia.
  - repeat split; vm_compute; reflexivity.
Qed.

(** C8, as the specification words it, fails at 90000 seconds: the printer
    does not answer 1d 1h 0m 0s. *)
Lemma C8_counterexample_90000 :
  PrettyTime._pretty_print_time 90000 ≠ "1d 1h 0m 0s".
Proof. vm_compute. discriminate. Qed.

(** ** The iterator of the schedule *)

Section IteratorFacts.

Lemma next_lookup (it : Schedule.__Inner) :
  Schedule.next it =
    match Schedule.it_plan it !! Schedule._idx it with
    | Some el =>
        Ok (el, {| Schedule.it_plan := Schedule.it_plan it;
                   Schedule._idx := Schedule._idx it + 1 |})
    | None => Raise StopIteration
    end.
Proof.
  unfold Schedule.next. destruct it as [plan idx]; simpl.
  replace (idx + 1 - 1)%nat with idx by lia.
  case_decide as Hlt.
  - destruct (lookup_lt_is_Some_2 plan idx Hlt) as [el Hel]. by rewrite Hel.
  - rewrite lookup_ge_None_2 by lia. done.
Qed.

(** Enough fuel drains the iterator to the end of its list; more fuel
    changes nothing. *)
Lemma drain_drop (fuel : nat) (plan : list Step._Inner) (idx : nat) :
  (length plan - idx < fuel)%nat →
  Schedule.drain fuel {| Schedule.it_plan := plan; Schedule._idx := idx |}
    = drop idx plan.
Proof.
  revert idx. induction fuel as [|fuel IH]; intros idx Hfuel; [lia|].
  cbn [Schedule.drain]. rewrite next_lookup. cbn [Schedule.it_plan Schedule._idx].
  destruct (plan !! idx) as [el|] eqn:Hel.
  - apply lookup_lt_Some in Hel as Hlt.
    rewrite IH by lia. rewrite (drop_S _ _ _ Hel).
    by replace (idx + 1)%nat with (S idx) by lia.
  - apply lookup_ge_None in Hel. by rewrite drop_ge.
Qed.

Lemma iterate_filter (s : Schedule.t) :
  Schedule.iterate s = filter (Schedule.selected s) (Schedule._plan s).
Proof.
  unfold Schedule.iterate, Schedule.__iter__. cbn [Schedule.it_plan].
  rewrite drain_drop by lia. done.
Qed.

Lemma for_each_list {St : Type} (fuel : nat) (plan : list Step._Inner)
    (idx : nat) (body : Step._Inner → St → EngineBuilder.M St) (acc : St)
    (r : EngineBuilder.Run) :
  (length plan - idx < fuel)%nat →
  EngineBuilder.for_each fuel
    {| Schedule.it_plan := plan; Schedule._idx := idx |} body acc r
    = EngineBuilder.for_list (drop idx plan) body acc r.
Proof.
  revert idx acc r. induction fuel as [|fuel IH]; intros idx acc r Hfuel; [lia|].
  cbn [EngineBuilder.for_each]. rewrite next_lookup.
  cbn [Schedule.it_plan Schedule._idx].
  destruct (plan !! idx) as [el|] eqn:Hel.
  - apply lookup_lt_Some in Hel as Hlt.
    rewrite (drop_S _ _ _ Hel). cbn [EngineBuilder.for_list].
    unfold mbind, EngineBuilder.M_bind.
    destruct (body el acc r) as [[acc'|e] r']; [|done].
    rewrite IH by lia. by rewrite Nat.add_1_r.
  - apply lookup_ge_None in Hel. by rewrite drop_ge.
Qed.

Lemma for_in_iterate {St : Type} (s : Schedule.t)
    (body : Step._Inner → St → EngineBuilder.M St) (acc : St)
    (r : EngineBuilder.Run) :
  EngineBuilder.for_in (Schedule.__iter__ s) body acc r
    = EngineBuilder.for_list (Schedule.iterate s) body acc r.
Proof.
  unfold EngineBuilder.for_in, Schedule.__iter__. cbn [Schedule.it_plan].
  rewrite for_each_list by lia. by rewrite iterate_filter.
Qed.

Lemma filter_sublist_of_implied {A : Type} (P Q : A → Prop)
    `{∀ x, Decision (P x)} `{∀ x, Decision (Q x)} (l : list A) :
  (∀ x, P x → Q x) → filter P l `sublist_of` filter Q l.
Proof.
  intros HPQ. induction l as [|x l IH]; [done|].
  rewrite !filter_cons.
  destruct (decide (P x)) as [HP|HP].
  - rewrite decide_True by auto. by constructor.
  - destruct (decide (Q x)); [by constructor|done].
Qed.

End IteratorFacts.

(** C1. Whatever the plan and the scheduled identifiers, the steps that the
    iteration of the schedule hands out are exactly the steps of the plan
    whose identifier is scheduled or which are not optional, in plan order;
    the loop of the runner visits exactly these; and the non-optional steps
    of the plan are all among them, in order, whatever was requested. *)
Theorem C1_iterate_scheduled_or_mandatory (s : Schedule.t) :
  Schedule.iterate s
    = filter (λ el, Step.id el ∈ Schedule._scheduled_steps s
                    ∨ ¬ Step.is_optional el) (Schedule._plan s)
  ∧ Schedule.iterate s `sublist_of` Schedule._plan s
  ∧ filter (λ el, ¬ Step.is_optional el) (Schedule._plan s)
      `sublist_of` Schedule.iterate s
  ∧ ∀ (St : Type) (body : Step._Inner → St → EngineBuilder.M St) (acc : St)
      (r : EngineBuilder.Run),
      EngineBuilder.for_in (Schedule.__iter__ s) body acc r
        = EngineBuilder.for_list
            (filter (λ el, Step.id el ∈ Schedule._scheduled_steps s
                           ∨ ¬ Step.is_optional el) (Schedule._plan s))
            body acc r.
Proof.
  repeat split.
  - apply iterate_filter.
  - rewrite iterate_filter. apply sublist_filter.
  - rewrite iterate_filter. apply filter_sublist_of_implied.
    intros el Hel. by right.
  - intros St body acc r. rewrite for_in_iterate. by rewrite iterate_filter.
Qed.

(** ** Construction of the schedule *)

(** C7. Without a requested subset the scheduled identifiers are those of
    the whole plan. With a requested subset, the unknown identifiers are the
    requested ones that no step of the plan carries; if there is none the
    schedule holds the request, and otherwise the constructor raises the
    configuration error whose message lists exactly the unknown identifiers,
    so that no builder exists on which a step could run. *)
Theorem C7_unknown_steps_rejected (plan : list Step._Inner)
    (filtered_steps : option (list string)) :
  let all_steps := Step.id <$> plan in
  match filtered_steps with
  | None =>
      Schedule.__init__ plan None
        = Ok {| Schedule._plan := plan; Schedule._scheduled_steps := all_steps;
                Schedule._passed_steps := [] |}
  | Some requested =>
      let unknown := filter (λ step, step ∉ all_steps) requested in
      (∀ x, x ∈ unknown ↔ x ∈ requested ∧ x ∉ all_steps) ∧
      match unknown with
      | [] =>
          requested ⊆ all_steps ∧
          Schedule.__init__ plan (Some requested)
            = Ok {| Schedule._plan := plan;
                    Schedule._scheduled_steps := requested;
                    Schedule._passed_steps := [] |}
      | _ :: _ =>
          Schedule.__init__ plan (Some requested)
            = Raise (IllegalArgumentException
                       ("Unknown training steps: " +:+ py_str_list unknown))
          ∧ ∀ h engine_name source_lang target_lang roots debug split_train,
              EngineBuilder.with_plan h plan engine_name source_lang target_lang
                roots debug (Some requested) split_train
              = Raise (IllegalArgumentException
                         ("Unknown training steps: " +:+ py_str_list unknown))
      end
  end.
Proof.
  intros all_steps. destruct filtered_steps as [requested|]; [|done].
  intros unknown. split.
  { intros x. unfold unknown. by rewrite list_elem_of_filter, (comm and). }
  assert (Hinit : Schedule.__init__ plan (Some requested) =
    if decide (0 < length unknown)%nat then
      Raise (IllegalArgumentException
               ("Unknown training steps: " +:+ py_str_list unknown))
    else Ok {| Schedule._plan := plan; Schedule._scheduled_steps := requested;
               Schedule._passed_steps := [] |}) by done.
  destruct unknown as [|u unknown'] eqn:Hunknown.
  - split; [|by rewrite Hinit].
    intros x Hx. destruct (decide (x ∈ all_steps)) as [|Hnot]; [done|].
    assert (x ∈ filter (λ step, step ∉ all_steps) requested) as Hin
      by by apply list_elem_of_filter.
    fold unknown in Hunknown. unfold unknown in Hunknown.
    rewrite Hunknown in Hin. by apply not_elem_of_nil in Hin.
  - rewrite Hinit. rewrite decide_True by (simpl; lia). split; [done|].
    intros. unfold EngineBuilder.with_plan. rewrite Hinit.
    rewrite decide_True by (simpl; lia). done.
Qed.

(** ** The step object *)

Section StepFacts.

Lemma forwarded_runner_kwargs (st : Step._Inner) (skip : bool) (log : pyval)
    (doe : bool) :
  ∃ kw, Step.forwarded st (EngineBuilder.step_kwargs skip log doe) = Ok kw
    ∧ ∀ key, kw !! key =
        if decide (key ∈ Step.argnames st)
        then EngineBuilder.step_kwargs skip log doe !! key
        else None.
Proof.
  unfold Step.forwarded, Step.del_unless_declared, Step.py_del,
    EngineBuilder.step_kwargs.
  destruct (decide ("delete_on_exit" ∉ Step.argnames st)) as [Hd|Hd];
    destruct (decide ("log" ∉ Step.argnames st)) as [Hl|Hl];
    destruct (decide ("skip" ∉ Step.argnames st)) as [Hs|Hs];
    cbn [mbind res_bind]; simplify_map_eq; cbn [mbind res_bind];
    simplify_map_eq;
    (eexists; split; [reflexivity|]);
    intros key;
    destruct (decide (key = "skip")) as [Hk1|Hk1];
    destruct (decide (key = "log")) as [Hk2|Hk2];
    destruct (decide (key = "delete_on_exit")) as [Hk3|Hk3];
    try apply dec_stable in Hd; try apply dec_stable in Hl;
    try apply dec_stable in Hs;
    simplify_map_eq; repeat case_decide; try done.
Qed.

End StepFacts.

(** C5. Called with the three keyword arguments of the runner, a step
    object hands its function exactly those of them whose name the function
    declares, each with the value the runner gave, and nothing else; the
    call of the function is therefore never refused for an undeclared
    keyword. *)
Theorem C5_only_declared_kwargs_forwarded (st : Step._Inner) (me : Self)
    (args : Args) (skip : bool) (log : pyval) (doe : bool) :
  ∃ kw : Kwargs,
    Step.forwarded st (EngineBuilder.step_kwargs skip log doe) = Ok kw
    ∧ (∀ key, kw !! key =
         if decide (key ∈ Step.argnames st)
         then EngineBuilder.step_kwargs skip log doe !! key
         else None)
    ∧ dom kw = dom (EngineBuilder.step_kwargs skip log doe)
                 ∩ list_to_set (Step.argnames st)
    ∧ Step.__call__ st me args (EngineBuilder.step_kwargs skip log doe)
        = Step._f st me args kw.
Proof.
  destruct (forwarded_runner_kwargs st skip log doe) as (kw & Hfw & Hkw).
  exists kw. split; [done|]. split; [done|]. split.
  - apply set_eq. intros key.
    rewrite elem_of_intersection, !elem_of_dom, elem_of_list_to_set, Hkw.
    case_decide as Hdecl.
    + split; [by intros ?|by intros [? _]].
    + split; [by intros [? ?]|by intros [_ ?]].
  - unfold Step.__call__. rewrite Hfw. cbn [mbind res_bind].
    unfold Step.apply_f. rewrite decide_True; [done|].
    intros key v Hkey. rewrite Hkw in Hkey. by case_decide.
Qed.

(** ** Loading an engine *)

Section LoadFacts.

Lemma read_config_name (c : Cli) (name config_path : string) (e : Engine.t) :
  Engine.read_config c name config_path = Ok e →
  Engine.name e = name ∧ Engine.config_path e = Engine._get_config_path c name.
Proof.
  unfold Engine.read_config, Engine._get_child.
  destruct (parse c config_path) as [root|]; cbn [mbind res_bind]; [|done].
  destruct (head (minidom.getElementsByTagName root "engine")) as [engine_el|];
    cbn [mbind res_bind]; [|done].
  destruct (head (minidom.getElementsByTagName engine_el "languages"));
    intros [= <-]; done.
Qed.

End LoadFacts.

(** C10. A name that contains the path separator makes [Engine.load]
    raise [IllegalArgumentException] without any access to the disk; a name
    without separator whose configuration file is missing makes it raise
    [IllegalArgumentException] after the one test for the file; and when it
    returns an engine, the name has no separator, the configuration file
    exists, and the engine carries that name and that path. *)
Theorem C10_load_guards (c : Cli) (name : string) :
  let config_path := os.path.join (ENGINES_DIR c) [name; "engine.xconf"] in
  (str_in os.sep name = true →
     Engine.load c name
       = (Raise (IllegalArgumentException
                   ("Invalid engine name: " +:+ dquote +:+ name +:+ dquote)), []))
  ∧ (str_in os.sep name = false → isfile c config_path = false →
     Engine.load c name
       = (Raise (IllegalArgumentException
                   ("Engine " +:+ squote +:+ name +:+ squote +:+ " not found")),
          [AIsfile config_path]))
  ∧ (∀ e, (Engine.load c name).1 = Ok e →
       str_in os.sep name = false ∧ isfile c config_path = true
       ∧ Engine.name e = name ∧ Engine.config_path e = config_path).
Proof.
  intros config_path. unfold Engine.load.
  fold (Engine._get_config_path c name) in config_path. fold config_path.
  split; [|split].
  - by intros ->.
  - by intros -> ->.
  - intros e. destruct (str_in os.sep name); [done|].
    destruct (isfile c config_path); [|done].
    cbn [negb fst]. intros He. apply read_config_name in He as [? ?]. done.
Qed.

(** C10 at work: on the demonstration disk the name [a/b] is refused
    before the disk is read. *)
Lemma C10_load_guards_witness :
  str_in os.sep "a/b" = true
  ∧ Engine.load Demo.demo_cli "a/b"
      = (Raise (IllegalArgumentException
                  ("Invalid engine name: " +:+ dquote +:+ "a/b" +:+ dquote)), []).
Proof.
  split; [reflexivity|].
  apply (proj1 (C10_load_guards Demo.demo_cli "a/b")). reflexivity.
Defined.

(** ** The hardware check *)

Section ConstraintFacts.

Lemma check_each_gpu_raises (h : Host) (limit : Z) (gpus : list Z) :
  (∃ cause, EngineBuilder.check_each_gpu h limit gpus
              = Raise (HWConstraintViolated cause))
  ↔ ∃ gpu, gpu ∈ gpus ∧ get_ram h gpu < limit.
Proof.
  induction gpus as [|gpu gpus IH]; cbn [EngineBuilder.check_each_gpu].
  - split; [by intros [? ?]|]. intros (? & Hin & _). by apply not_elem_of_nil in Hin.
  - case_decide as Hlow.
    + split; [|by eauto]. intros _. exists gpu. split; [left|done].
    + rewrite IH. split.
      * intros (g & Hin & Hg). exists g. split; [by right|done].
      * intros (g & Hin & Hg). apply elem_of_cons in Hin as [->|Hin]; [lia|].
        by exists g.
Qed.

Lemma check_each_gpu_cases (h : Host) (limit : Z) (gpus : list Z) :
  EngineBuilder.check_each_gpu h limit gpus = Ok ()
  ∨ ∃ cause, EngineBuilder.check_each_gpu h limit gpus
               = Raise (HWConstraintViolated cause).
Proof.
  induction gpus as [|gpu gpus IH]; cbn [EngineBuilder.check_each_gpu];
    [by left|].
  case_decide; [right; by eauto|done].
Qed.

Lemma check_constraints_cases (h : Host) :
  EngineBuilder._check_constraints h = Ok ()
  ∨ ∃ cause, EngineBuilder._check_constraints h
               = Raise (HWConstraintViolated cause).
Proof.
  unfold EngineBuilder._check_constraints.
  case_decide; [right; by eauto|]. apply check_each_gpu_cases.
Qed.

Lemma check_constraints_raises (h : Host) :
  (∃ cause, EngineBuilder._check_constraints h
              = Raise (HWConstraintViolated cause))
  ↔ list_gpus h = []
    ∨ ∃ gpu, gpu ∈ list_gpus h ∧ get_ram h gpu < 8 * EngineBuilder._GB.
Proof.
  unfold EngineBuilder._check_constraints.
  case_decide as Hlen.
  - apply length_zero_iff_nil in Hlen. split; [by left|by eauto].
  - rewrite check_each_gpu_raises. split; [by right|].
    intros [Hnil|?]; [|done]. by rewrite Hnil in Hlen.
Qed.

End ConstraintFacts.

(** ** One turn of the loop *)

Section RunFacts.
Import EngineBuilder.

Lemma calls_of_app (a b : list Event) : calls_of (a ++ b) = calls_of a ++ calls_of b.
Proof. apply omap_app. Qed.

Lemma stores_of_app (a b : list Event) : stores_of (a ++ b) = stores_of a ++ stores_of b.
Proof. apply omap_app. Qed.

Lemma warnings_of_app (a b : list Event) :
  warnings_of (a ++ b) = warnings_of a ++ warnings_of b.
Proof. apply omap_app. Qed.

Lemma run_step_eq (h : Host) (log : pyval) (n : nat) (m : Step._Inner)
    (acc : Z * Args) (r : Run) :
  let s := _schedule (builder r) in
  let me := self (builder r) in
  let kwargs :=
    step_kwargs (Schedule.is_completed s (Step.id m)) log (_delete_on_exit me) in
  run_step h log n m acc r =
    match Step.__call__ m me acc.2 kwargs with
    | Raise e =>
        (Raise e,
         {| builder := builder r;
            world := {| checkpoint := checkpoint (world r);
                        events := events (world r)
                                    ++ Expected.before_call log n m acc.1 me s |} |})
    | Ok args' =>
        (Ok (acc.1 + 1, args'),
         {| builder := {| self := me;
                          _schedule := Schedule.step_completed s (Step.id m) |};
            world := {| checkpoint :=
                          Some (Json (Schedule._passed_steps s ++ [Step.id m]));
                        events := events (world r)
                                    ++ Expected.before_call log n m acc.1 me s
                                    ++ Expected.after_call h m s |} |})
    end.
Proof.
  destruct r as [[me s] [f evs]]. destruct acc as [step_index args].
  cbn [builder world self _schedule checkpoint events fst snd].
  unfold run_step, Expected.before_call, Expected.after_call.
  unfold when, print, schedule_step_completed, schedule_store, Step.is_hidden.
  unfold mbind, M_bind, mret, M_ret, emit, get_schedule, get_self,
    lift, put_schedule, put_file, get_file.
  cbn [builder world self _schedule checkpoint events fst snd].
  destruct (Step._hidden m); cbn [negb];
    cbn [builder world self _schedule checkpoint events fst snd];
    destruct (Step.__call__ m me args _) as [args'|e];
    cbn [builder world self _schedule checkpoint events fst snd];
    unfold Schedule.store, Schedule.step_completed, Schedule.set_passed;
    cbn [Schedule._passed_steps];
    repeat (rewrite <- ?app_assoc; cbn [app]); reflexivity.
Qed.
End RunFacts.

(** ** The loop over the schedule *)

Section LoopFacts.
Import EngineBuilder.

Lemma for_list_cons {St : Type} (m : Step._Inner) (l : list Step._Inner)
    (body : Step._Inner → St → M St) (acc : St) (r : Run) :
  for_list (m :: l) body acc r =
    match body m acc r with
    | (Ok acc', r') => for_list l body acc' r'
    | (Raise e, r') => (Raise e, r')
    end.
Proof. reflexivity. Qed.

Lemma before_call_obs (log : pyval) (n : nat) (m : Step._Inner) (i : Z)
    (me : Self) (s : Schedule.t) :
  calls_of (Expected.before_call log n m i me s)
    = [(Step.id m,
        step_kwargs (Schedule.is_completed s (Step.id m)) log (_delete_on_exit me))]
  ∧ stores_of (Expected.before_call log n m i me s) = []
  ∧ warnings_of (Expected.before_call log n m i me s) = [].
Proof. unfold Expected.before_call. by destruct (Step.is_hidden m). Qed.

Lemma after_call_obs (h : Host) (m : Step._Inner) (s : Schedule.t) :
  calls_of (Expected.after_call h m s) = []
  ∧ stores_of (Expected.after_call h m s) = [Schedule._passed_steps s ++ [Step.id m]]
  ∧ warnings_of (Expected.after_call h m s) = [].
Proof. unfold Expected.after_call. by destruct (Step.is_hidden m). Qed.

(** The loop stops at the first step that raises. With [k] the number of
    steps that returned: the completed list has grown by their
    identifiers, the file holds the completed list as soon as one step
    returned, one list was written per returned step, and one call was
    made per returned step and one more for the step that raised. *)
Lemma loop_spec (h : Host) (log : pyval) (n : nat) (l : list Step._Inner) :
  ∀ (acc : Z * Args) (r : Run),
    let out := for_list l (run_step h log n) acc r in
    let p := passed_of r in
    let doe := _delete_on_exit (self (builder r)) in
    ∃ (k : nat) (delta : list Event),
      (k ≤ length l)%nat
      ∧ is_ok out.1 = bool_decide (k = length l)
      ∧ self (builder out.2) = self (builder r)
      ∧ Schedule._plan (_schedule (builder out.2))
          = Schedule._plan (_schedule (builder r))
      ∧ Schedule._scheduled_steps (_schedule (builder out.2))
          = Schedule._scheduled_steps (_schedule (builder r))
      ∧ passed_of out.2 = p ++ (Step.id <$> take k l)
      ∧ file_of out.2
          = match k with O => file_of r | _ => Some (Json (passed_of out.2)) end
      ∧ events (world out.2) = events (world r) ++ delta
      ∧ stores_of delta = take k (Expected.stores l p)
      ∧ calls_of delta
          = take (if is_ok out.1 then k else S k) (Expected.calls log doe l p)
      ∧ warnings_of delta = [].
Proof.
  induction l as [|m l IH]; intros acc r.
  { exists 0%nat, []. cbn. rewrite !app_nil_r. repeat split; done. }
  cbn zeta. rewrite for_list_cons, run_step_eq.
  destruct (before_call_obs log n m acc.1 (self (builder r)) (_schedule (builder r)))
    as (Hc1 & Hs1 & Hw1).
  destruct (after_call_obs h m (_schedule (builder r))) as (Hc2 & Hs2 & Hw2).
  destruct (Step.__call__ m _ _ _) as [args'|e].
  - match goal with |- context [for_list l _ ?a ?r'] =>
      destruct (IH a r') as (k & delta & Hk & Hok & Hself & Hplan & Hsched
                               & Hpassed & Hfile & Hevs & Hstores & Hcalls
                               & Hwarn) end.
    unfold passed_of, file_of in *.
    cbn [builder world self _schedule checkpoint events
         Schedule.step_completed Schedule.set_passed Schedule._passed_steps
         Schedule._plan Schedule._scheduled_steps] in *.
    exists (S k),
      (Expected.before_call log n m acc.1 (self (builder r)) (_schedule (builder r))
         ++ Expected.after_call h m (_schedule (builder r)) ++ delta).
    cbn [length take fmap list_fmap Expected.stores Expected.calls].
    split; [lia|]. split.
    { rewrite Hok. apply bool_decide_ext. lia. }
    split; [done|]. split; [done|]. split; [done|]. split.
    { rewrite Hpassed. by rewrite <- app_assoc. }
    split.
    { rewrite Hfile. destruct k; [|done].
      rewrite Hpassed. by rewrite take_0, app_nil_r. }
    split.
    { rewrite Hevs. by rewrite <- !app_assoc. }
    split.
    { by rewrite !stores_of_app, Hs1, Hs2, Hstores. }
    split.
    { rewrite !calls_of_app, Hc1, Hc2, Hcalls. cbn [app].
      unfold Schedule.is_completed. by destruct (is_ok _). }
    by rewrite !warnings_of_app, Hw1, Hw2, Hwarn.
  - unfold passed_of, file_of.
    cbn [builder world self _schedule checkpoint events fst snd is_ok].
    exists 0%nat,
      (Expected.before_call log n m acc.1 (self (builder r)) (_schedule (builder r))).
    cbn [length take fmap list_fmap Expected.stores Expected.calls].
    split; [lia|]. split; [done|].
    split; [done|]. split; [done|]. split; [done|].
    split; [by rewrite app_nil_r|]. split; [done|]. split; [done|].
    split; [done|]. split; [by rewrite Hc1, take_0|done].
Qed.

End LoopFacts.

(** ** The run as a whole *)

Section BuildFacts.
Import EngineBuilder.

Lemma clear_training_eq (r : Run) :
  Engine_clear_tempdir (Some "training") r
    = (Ok (), {| builder := builder r;
                 world := {| checkpoint := None; events := events (world r) |} |}).
Proof.
  unfold Engine_clear_tempdir. rewrite bool_decide_eq_true_2 by (by right). done.
Qed.

Lemma get_tempdir_training_eq (ensure : bool) (r : Run) :
  Engine_get_tempdir "training" ensure r
    = (Ok (os.path.join (Engine.temp_path (_engine (self (builder r)))) ["training"]),
       {| builder := builder r;
          world := {| checkpoint := if ensure then None else checkpoint (world r);
                      events := events (world r) |} |}).
Proof.
  unfold Engine_get_tempdir. rewrite bool_decide_eq_true_2 by done.
  destruct r as [b [f evs]]. by destruct ensure.
Qed.

Lemma training_eq (h : Host) (corpora : list BilingualCorpus) (log : pyval)
    (n : nat) (r : Run) :
  let me := self (builder r) in
  let r1 :=
    {| builder := builder r;
       world := {| checkpoint := checkpoint (world r);
                   events := events (world r) ++ Expected.prelude me corpora
                               ++ Expected.warning h |} |} in
  training h corpora log n r =
    match for_list (Schedule.iterate (_schedule (builder r)))
            (run_step h log n) (1, {[ "corpora" := corpora ]}) r1 with
    | (Raise e, r2) => (Raise e, r2)
    | (Ok _, r2) =>
        (Ok (),
         {| builder := builder r2;
            world := {| checkpoint := if _delete_on_exit me then None
                                      else checkpoint (world r2);
                        events := events (world r2) ++ Expected.success me |} |})
    end.
Proof.
  destruct r as [[me s] [f evs]].
  cbn [builder world self _schedule checkpoint events].
  unfold training, check_and_warn, Expected.warning, Expected.prelude,
    Expected.success.
  unfold print. unfold mbind, M_bind, emit, get_self, get_schedule.
  cbn [builder world self _schedule checkpoint events].
  destruct (check_constraints_cases h) as [Hchk|[cause Hchk]]; rewrite Hchk;
    unfold mret, M_ret;
    cbn [builder world self _schedule checkpoint events];
    rewrite for_in_iterate;
    repeat (rewrite <- ?app_assoc; cbn [app]);
    (destruct (for_list _ _ _ _) as [[acc'|e] [b2 [f2 evs2]]]; [|done]);
    cbn [builder world self _schedule checkpoint events];
    unfold when; destruct (_delete_on_exit me);
    rewrite ?clear_training_eq; unfold mret, M_ret;
    cbn [builder world self _schedule checkpoint events];
    repeat (rewrite <- ?app_assoc; cbn [app]); reflexivity.
Qed.

Lemma build_eq (h : Host) (resume : bool) (r : Run) :
  let me0 := self (builder r) in
  let s0 := _schedule (builder r) in
  let corpora :=
    BilingualCorpus_list h (source_lang me0) (target_lang me0) (roots me0) in
  _build h resume r =
    match (if resume then Schedule.load s0 (checkpoint (world r)) else Ok s0) with
    | Raise e => (Raise e, Expected.at_loop true r s0)
    | Ok s1 =>
        if decide (length corpora = 0%nat) then
          (Raise (CorpusNotFoundInFolderException
                    ("Could not find " +:+ source_lang me0 +:+ " > "
                       +:+ target_lang me0 +:+ " corpora in path "
                       +:+ str_join ", " (roots me0))),
           Expected.at_loop resume r s1)
        else
          Expected.closing
            (training h corpora
               (VFile (Engine_get_logfile (_engine me0) "training")
                      (if resume then "ab" else "wb"))
               (length (Schedule.visible_steps s1))
               (Expected.at_loop resume r s1))
    end.
Proof.
  destruct r as [[me s] [f evs]].
  cbn [builder world self _schedule checkpoint events].
  unfold _build, Expected.at_loop, Expected.closing.
  unfold mbind at 1. unfold M_bind at 1. rewrite get_tempdir_training_eq.
  cbn [builder world self _schedule checkpoint events].
  unfold schedule_load, schedule_store, try_finally, try_except.
  unfold mbind, M_bind, mret, M_ret, emit, get_self, get_schedule, put_self,
    put_schedule, put_file, get_file, lift, raise.
  cbn [builder world self _schedule checkpoint events].
  destruct resume; cbn [negb];
    cbn [builder world self _schedule checkpoint events].
  - destruct (Schedule.load s f) as [s1|e];
      cbn [builder world self _schedule checkpoint events source_lang
           target_lang roots set_temp_dir _engine]; [|done].
    case_decide; [done|].
    cbn [builder world self _schedule checkpoint events].
    destruct (training _ _ _ _ _) as [[[]|e] r2];
      cbn [builder world self _schedule checkpoint events];
      rewrite <- ?app_assoc; done.
  - unfold Schedule.store.
    cbn [builder world self _schedule checkpoint events source_lang
         target_lang roots set_temp_dir _engine].
    case_decide; [done|].
    cbn [builder world self _schedule checkpoint events].
    destruct (training _ _ _ _ _) as [[[]|e] r2];
      cbn [builder world self _schedule checkpoint events];
      rewrite <- ?app_assoc; done.
Qed.

End BuildFacts.

Section TrainingFacts.
Import EngineBuilder.

Lemma prelude_obs (me : Self) (corpora : list BilingualCorpus) :
  calls_of (Expected.prelude me corpora) = []
  ∧ stores_of (Expected.prelude me corpora) = []
  ∧ warnings_of (Expected.prelude me corpora) = [].
Proof. done. Qed.

Lemma success_obs (me : Self) :
  calls_of (Expected.success me) = []
  ∧ stores_of (Expected.success me) = []
  ∧ warnings_of (Expected.success me) = [].
Proof. done. Qed.

Lemma warning_obs (h : Host) :
  calls_of (Expected.warning h) = []
  ∧ stores_of (Expected.warning h) = []
  ∧ warnings_of (Expected.warning h) =
      match _check_constraints h with
      | Raise (HWConstraintViolated cause) => [warning_line cause]
      | _ => []
      end.
Proof.
  unfold Expected.warning.
  destruct (check_constraints_cases h) as [->|[cause ->]]; done.
Qed.

Lemma training_spec (h : Host) (corpora : list BilingualCorpus) (log : pyval)
    (n : nat) (r : Run) :
  let out := training h corpora log n r in
  let l := Schedule.iterate (_schedule (builder r)) in
  let p := passed_of r in
  let doe := _delete_on_exit (self (builder r)) in
  ∃ (k : nat) (delta : list Event),
    (k ≤ length l)%nat
    ∧ is_ok out.1 = bool_decide (k = length l)
    ∧ self (builder out.2) = self (builder r)
    ∧ Schedule._plan (_schedule (builder out.2))
        = Schedule._plan (_schedule (builder r))
    ∧ Schedule._scheduled_steps (_schedule (builder out.2))
        = Schedule._scheduled_steps (_schedule (builder r))
    ∧ passed_of out.2 = p ++ (Step.id <$> take k l)
    ∧ file_of out.2
        = (if is_ok out.1 && doe then None
           else match k with
                | O => file_of r
                | _ => Some (Json (passed_of out.2))
                end)
    ∧ events (world out.2)
        = events (world r) ++ Expected.prelude (self (builder r)) corpora
            ++ Expected.warning h ++ delta
    ∧ stores_of delta = take k (Expected.stores l p)
    ∧ calls_of delta
        = take (if is_ok out.1 then k else S k) (Expected.calls log doe l p)
    ∧ warnings_of delta = [].
Proof.
  cbn zeta. rewrite training_eq. cbn zeta.
  match goal with |- context [for_list ?l ?body ?a ?r1] =>
    destruct (loop_spec h log n l a r1)
      as (k & delta & Hk & Hok & Hself & Hplan & Hsched & Hpassed & Hfile
            & Hevs & Hstores & Hcalls & Hwarn);
    destruct (for_list l body a r1) as [[acc'|e] r2] end;
    unfold passed_of, file_of in *;
    cbn [builder world self _schedule checkpoint events fst snd is_ok] in *.
  - exists k, (delta ++ Expected.success (self (builder r))).
    destruct (success_obs (self (builder r))) as (Hc & Hs & Hw).
    split; [done|]. split; [done|]. split; [done|]. split; [done|].
    split; [done|]. split; [done|]. split.
    { cbn [andb]. destruct (_delete_on_exit _); [done|].
      by rewrite Hfile. }
    split; [by rewrite Hevs, <- !app_assoc|].
    split; [by rewrite stores_of_app, Hs, app_nil_r|].
    split; [by rewrite calls_of_app, Hc, app_nil_r|].
    by rewrite warnings_of_app, Hw, Hwarn.
  - exists k, delta.
    split; [done|]. split; [done|]. split; [done|]. split; [done|].
    split; [done|]. split; [done|]. split; [by rewrite Hfile|].
    split; [by rewrite Hevs, <- !app_assoc|]. done.
Qed.

End TrainingFacts.

Section BuildSpec.
Import EngineBuilder.

Lemma iterate_set_passed (s : Schedule.t) (passed : list string) :
  Schedule.iterate (Schedule.set_passed s passed) = Schedule.iterate s.
Proof. done. Qed.

Lemma load_cases (s : Schedule.t) (file : option FileContent) :
  (file = Some NotJson ∧ Schedule.load s file = Raise ValueError)
  ∨ (file ≠ Some NotJson
     ∧ Schedule.load s file
         = Ok (Schedule.set_passed s (Expected.start_passed true s file))).
Proof. destruct file as [[|steps]|]; [by left|by right..]. Qed.

(** The outcome of [build] and [resume] in terms of [k], the number of
    steps that returned. *)
Lemma build_spec (h : Host) (resume : bool) (r : Run) :
  let out := _build h resume r in
  let me0 := self (builder r) in
  let s0 := _schedule (builder r) in
  let file0 := checkpoint (world r) in
  let l := Schedule.iterate s0 in
  let p := Expected.start_passed resume s0 file0 in
  let log := Expected.log_stream resume me0 in
  let doe := _delete_on_exit me0 in
  let reached := Expected.reached h resume me0 file0 in
  ∃ (k : nat) (pre post : list Event),
    (k ≤ length l)%nat
    ∧ is_ok out.1 = reached && bool_decide (k = length l)
    ∧ (reached = false → k = 0%nat)
    ∧ _delete_on_exit (self (builder out.2)) = doe
    ∧ Schedule._plan (_schedule (builder out.2)) = Schedule._plan s0
    ∧ Schedule._scheduled_steps (_schedule (builder out.2))
        = Schedule._scheduled_steps s0
    ∧ passed_of out.2 = p ++ (Step.id <$> take k l)
    ∧ file_of out.2
        = (if is_ok out.1 && doe then None
           else match k with
                | O => if resume then file0 else Some (Json p)
                | _ => Some (Json (passed_of out.2))
                end)
    ∧ events (world out.2)
        = events (world r) ++ pre
            ++ (if reached then Expected.warning h else []) ++ post
    ∧ stores_of pre = (if resume then [] else [p])
    ∧ calls_of pre = []
    ∧ warnings_of pre = []
    ∧ stores_of post = take k (Expected.stores l p)
    ∧ calls_of post
        = take (if is_ok out.1 then k else if reached then S k else O)
            (Expected.calls log doe l p)
    ∧ warnings_of post = [].
Proof.
  cbn zeta. rewrite build_eq. cbn zeta.
  unfold Expected.reached, Expected.log_stream.
  set (me0 := self (builder r)). set (s0 := _schedule (builder r)).
  set (file0 := checkpoint (world r)).
  set (corpora := BilingualCorpus_list h _ _ _).
  assert (Hstart : ∃ s1,
    (if resume then Schedule.load s0 file0 else Ok s0) = Ok s1
    ∧ negb (resume && bool_decide (file0 = Some NotJson)) = true
    ∧ Schedule._plan s1 = Schedule._plan s0
    ∧ Schedule._scheduled_steps s1 = Schedule._scheduled_steps s0
    ∧ Schedule._passed_steps s1 = Expected.start_passed resume s0 file0
    ∧ Schedule.iterate s1 = Schedule.iterate s0
    ∨ resume = true ∧ file0 = Some NotJson
      ∧ Schedule.load s0 file0 = Raise ValueError).
  { destruct resume.
    - destruct (load_cases s0 file0) as [[Hf Hl]|[Hf Hl]].
      + exists s0. by right.
      + eexists. left. split; [exact Hl|].
        split; [by rewrite bool_decide_eq_false_2|]. done.
    - exists s0. by left. }
  destruct Hstart as [s1 [(Hload & Hresume & Hplan1 & Hsched1 & Hpassed1 & Hiter1)
                         |(-> & Hfile & Hload)]].
  2: { rewrite Hload. rewrite bool_decide_eq_true_2 by done.
       exists 0%nat, [], []. unfold passed_of, file_of, Expected.at_loop.
       cbn [builder world self _schedule checkpoint events fst snd is_ok
            andb negb take fmap list_fmap Expected.start_passed].
       fold s0 file0. rewrite Hfile. rewrite !app_nil_r.
       repeat split; try done; lia. }
  rewrite Hload, Hresume. cbn [andb].
  destruct (decide (length corpora = 0%nat)) as [Hnone|Hsome].
  { rewrite bool_decide_eq_true_2 by done.
    exists 0%nat, (if resume then [] else [EStore (Schedule._passed_steps s0)]), [].
    unfold passed_of, file_of, Expected.at_loop.
    cbn [builder world self _schedule checkpoint events fst snd is_ok
         andb negb take fmap list_fmap].
    fold s0. rewrite Hpassed1, !app_nil_r.
    destruct resume; cbn [Expected.start_passed world checkpoint events];
      rewrite ?app_nil_r; repeat split; try done; lia. }
  rewrite bool_decide_eq_false_2 by done. cbn [negb andb].
  match goal with |- context [training h corpora ?lg ?n ?r1] =>
    destruct (training_spec h corpora lg n r1)
      as (k & delta & Hk & Hok & Hself & Hplan & Hsched & Hpassed & Hfile
            & Hevs & Hstores & Hcalls & Hwarn);
    destruct (training h corpora lg n r1) as [[[]|e] r2] end;
    unfold passed_of, file_of, Expected.at_loop, Expected.closing in *;
    cbn [builder world self _schedule checkpoint events fst snd is_ok
         set_temp_dir _delete_on_exit] in *;
    fold me0 s0 file0 in Hself, Hplan, Hsched, Hpassed, Hfile, Hevs, Hstores,
      Hcalls |- *;
    rewrite ?Hiter1, ?Hpassed1 in *.
  - exists k,
      ((if resume then [] else [EStore (Schedule._passed_steps s0)])
         ++ Expected.prelude (set_temp_dir me0
              (os.path.join (Engine.temp_path (_engine me0)) ["training"])) corpora),
      (delta ++ [ELogClosed]).
    split; [done|]. split; [done|]. split; [done|].
    split; [by rewrite Hself|]. split; [by rewrite Hplan|].
    split; [by rewrite Hsched|]. split; [done|]. split.
    { rewrite Hfile. destruct (_delete_on_exit me0); [done|].
      cbn [andb]. destruct k; [|done]. by destruct resume. }
    split.
    { rewrite Hevs. destruct resume; cbn [world events];
        by rewrite <- ?app_assoc. }
    split; [by destruct resume|]. split; [by destruct resume|].
    split; [by destruct resume|].
    split; [by rewrite stores_of_app, Hstores, app_nil_r|].
    split; [by rewrite calls_of_app, Hcalls, app_nil_r|].
    by rewrite warnings_of_app, Hwarn.
  - exists k,
      ((if resume then [] else [EStore (Schedule._passed_steps s0)])
         ++ Expected.prelude (set_temp_dir me0
              (os.path.join (Engine.temp_path (_engine me0)) ["training"])) corpora),
      (delta ++ [ELogException e; ELogClosed]).
    split; [done|]. split; [done|]. split; [done|].
    split; [by rewrite Hself|]. split; [by rewrite Hplan|].
    split; [by rewrite Hsched|]. split; [done|]. split.
    { rewrite Hfile. cbn [andb]. destruct k; [|done]. by destruct resume. }
    split.
    { rewrite Hevs. destruct resume; cbn [world events];
        by rewrite <- ?app_assoc. }
    split; [by destruct resume|]. split; [by destruct resume|].
    split; [by destruct resume|].
    split; [by rewrite stores_of_app, Hstores, app_nil_r|].
    split; [by rewrite calls_of_app, Hcalls, app_nil_r|].
    by rewrite warnings_of_app, Hwarn.
Qed.

End BuildSpec.

(** ** The GPU inventory and the run *)

Section GpuFacts.
Import EngineBuilder.

(** The loop never reads the events: started from two worlds that differ
    in their events only, it ends alike and adds the same events. *)
Lemma loop_events_irrelevant (h : Host) (log : pyval) (n : nat)
    (l : list Step._Inner) :
  ∀ (acc : Z * Args) (r : Run) (evs' : list Event),
    let out := for_list l (run_step h log n) acc r in
    ∃ d, events (world out.2) = events (world r) ++ d
         ∧ for_list l (run_step h log n) acc (Expected.put_events r evs')
             = (out.1, Expected.put_events out.2 (evs' ++ d)).
Proof.
  induction l as [|m l IH]; intros acc r evs'; cbn zeta.
  { exists []. by rewrite !app_nil_r. }
  rewrite !for_list_cons, !run_step_eq. unfold Expected.put_events.
  cbn [builder world self _schedule checkpoint events].
  destruct (Step.__call__ m _ _ _) as [args'|e].
  - match goal with |- context [for_list l _ ?a ?r1] =>
      destruct (IH a r1
                  (evs' ++ Expected.before_call log n m acc.1 (self (builder r))
                             (_schedule (builder r))
                        ++ Expected.after_call h m (_schedule (builder r))))
        as (d & Hd & Heq) end.
    unfold Expected.put_events in Heq.
    cbn [builder world self _schedule checkpoint events] in Hd, Heq.
    eexists. split.
    + rewrite Hd, <- !app_assoc. reflexivity.
    + rewrite Heq. by rewrite <- !app_assoc.
  - cbn [fst snd]. eexists. split; [reflexivity|]. done.
Qed.

Lemma training_gpus_irrelevant (h : Host) (gpus : list Z) (ram : Z → Z)
    (corpora : list BilingualCorpus) (log : pyval) (n : nat) (r : Run) :
  let out := training h corpora log n r in
  let prelude := Expected.prelude (self (builder r)) corpora in
  ∃ post,
    events (world out.2)
      = events (world r) ++ prelude ++ Expected.warning h ++ post
    ∧ training (with_gpus h gpus ram) corpora log n r
        = (out.1,
           Expected.put_events out.2
             (events (world r) ++ prelude
                ++ Expected.warning (with_gpus h gpus ram) ++ post)).
Proof.
  cbn zeta. rewrite !training_eq. cbn zeta.
  change (run_step (with_gpus h gpus ram) log n) with (run_step h log n).
  match goal with |- context [for_list ?l ?body ?a ?r1] =>
    destruct (loop_events_irrelevant h log n l a r1
                (events (world r) ++ Expected.prelude (self (builder r)) corpora
                   ++ Expected.warning (with_gpus h gpus ram)))
      as (d & Hd & Heq) end.
  unfold Expected.put_events in *.
  cbn [builder world checkpoint events] in Hd, Heq.
  rewrite Heq.
  destruct (for_list _ _ _ _) as [[acc'|e] r2];
    cbn [builder world checkpoint events fst snd] in *.
  - exists (d ++ Expected.success (self (builder r))). split.
    + by rewrite Hd, <- !app_assoc.
    + by rewrite <- !app_assoc.
  - exists d. split; [by rewrite Hd, <- !app_assoc|]. by rewrite <- !app_assoc.
Qed.

Lemma build_gpus_irrelevant (h : Host) (gpus : list Z) (ram : Z → Z)
    (resume : bool) (r : Run) :
  let out := _build h resume r in
  let reached :=
    Expected.reached h resume (self (builder r)) (checkpoint (world r)) in
  ∃ pre post,
    events (world out.2)
      = events (world r) ++ pre
          ++ (if reached then Expected.warning h else []) ++ post
    ∧ _build (with_gpus h gpus ram) resume r
        = (out.1,
           Expected.put_events out.2
             (events (world r) ++ pre
                ++ (if reached then Expected.warning (with_gpus h gpus ram)
                    else []) ++ post)).
Proof.
  cbn zeta. rewrite !build_eq. cbn zeta. unfold Expected.reached.
  cbn [with_gpus BilingualCorpus_list].
  set (corpora := BilingualCorpus_list h _ _ _).
  destruct resume; cbn [andb negb].
  - destruct (load_cases (_schedule (builder r)) (checkpoint (world r)))
      as [[Hf Hl]|[Hf Hl]]; rewrite Hl.
    { exists [], []. rewrite bool_decide_eq_true_2 by done.
      destruct r as [b [f evs]]. cbn. by rewrite ?app_nil_r. }
    rewrite (bool_decide_eq_false_2 _ Hf). cbn [negb andb].
    case_decide as Hc.
    { exists [], []. rewrite bool_decide_eq_true_2 by done.
      destruct r as [b [f evs]]. cbn. by rewrite ?app_nil_r. }
    rewrite bool_decide_eq_false_2 by done. cbn [negb].
    match goal with |- context [training h corpora ?lg ?n ?r1] =>
      destruct (training_gpus_irrelevant h gpus ram corpora lg n r1)
        as (post & Hevs & Heq) end.
    rewrite Heq.
    destruct (training h corpora _ _ _) as [[[]|e] r2];
      unfold Expected.at_loop, Expected.closing, Expected.put_events in *;
      cbn [builder world checkpoint events fst snd self] in *;
      eexists (Expected.prelude _ corpora), _;
      (split; [rewrite Hevs, <- !app_assoc; reflexivity|]);
      by rewrite <- !app_assoc.
  - case_decide as Hc.
    { exists [EStore (Schedule._passed_steps (_schedule (builder r)))], [].
      rewrite bool_decide_eq_true_2 by done.
      destruct r as [b [f evs]]. cbn. by rewrite ?app_nil_r. }
    rewrite bool_decide_eq_false_2 by done. cbn [negb].
    match goal with |- context [training h corpora ?lg ?n ?r1] =>
      destruct (training_gpus_irrelevant h gpus ram corpora lg n r1)
        as (post & Hevs & Heq) end.
    rewrite Heq.
    destruct (training h corpora _ _ _) as [[[]|e] r2];
      unfold Expected.at_loop, Expected.closing, Expected.put_events in *;
      cbn [builder world checkpoint events fst snd self] in *;
      eexists (EStore _ :: Expected.prelude _ corpora), _;
      (split; [rewrite Hevs, <- !app_assoc; reflexivity|]);
      by rewrite <- !app_assoc.
Qed.

End GpuFacts.

(** ** Calls, checkpoints and completed steps of a run *)

Section TraceFacts.
Import EngineBuilder.

Lemma new_events_app (w : World) (r : Run) (d : list Event) :
  events (world r) = events w ++ d → new_events w r = d.
Proof. intros Hd. unfold new_events. rewrite Hd. apply drop_app_length. Qed.

Lemma expected_calls_fst (log : pyval) (doe : bool) (l : list Step._Inner) :
  ∀ p, (Expected.calls log doe l p).*1 = Step.id <$> l.
Proof. induction l as [|m l IH]; intros p; [done|]. cbn. by rewrite IH. Qed.

Lemma expected_calls_skip (log : pyval) (doe : bool) (loaded : list string)
    (l : list Step._Inner) :
  ∀ done, NoDup (done ++ (Step.id <$> l)) →
    Forall (λ c, c.2 = step_kwargs (bool_decide (c.1 ∈ loaded)) log doe)
      (Expected.calls log doe l (loaded ++ done)).
Proof.
  induction l as [|m l IH]; intros done Hnodup; [by constructor|].
  cbn [Expected.calls]. constructor.
  - cbn [fst snd]. f_equal. apply bool_decide_ext.
    rewrite elem_of_app. split; [|by left]. intros [Hin|Hin]; [done|].
    apply NoDup_app in Hnodup as (_ & Hdisj & _).
    exfalso. apply (Hdisj _ Hin). cbn. left.
  - rewrite <- app_assoc. apply IH.
    rewrite <- app_assoc. exact Hnodup.
Qed.

Lemma skip_of_step_kwargs (skip : bool) (log : pyval) (doe : bool) :
  step_kwargs skip log doe !! "skip" = Some (VBool skip).
Proof. unfold step_kwargs. by rewrite lookup_insert_eq. Qed.

Lemma expected_stores_seq (l : list Step._Inner) :
  ∀ p, Expected.stores l p
       = (λ j, p ++ take j (Step.id <$> l)) <$> seq 1 (length l).
Proof.
  induction l as [|m l IH]; intros p; [done|].
  cbn [Expected.stores length seq fmap list_fmap take]. f_equal.
  rewrite IH, <- (fmap_S_seq 1), <- list_fmap_compose.
  apply list_fmap_ext. intros _ j _. cbn. by rewrite <- app_assoc.
Qed.

Lemma take_expected_stores (l : list Step._Inner) (p : list string) (k : nat) :
  (k ≤ length l)%nat →
  take k (Expected.stores l p)
    = (λ j, p ++ take j (Step.id <$> l)) <$> seq 1 k.
Proof.
  intros Hk. rewrite expected_stores_seq, <- fmap_take, take_seq.
  by rewrite Nat.min_l.
Qed.

Lemma occurs_never (x : string) (l : list string) :
  x ∉ l → filter (λ y, y = x) l = [].
Proof.
  induction l as [|y l IH]; intros Hnot; [done|].
  apply not_elem_of_cons in Hnot as [Hne Hnot].
  rewrite filter_cons, decide_False by done. by apply IH.
Qed.

Lemma occurs_once (x : string) (l : list string) :
  NoDup l → x ∈ l → length (filter (λ y, y = x) l) = 1%nat.
Proof.
  induction 1 as [|y l Hy Hnodup IH]; intros Hin.
  - by apply not_elem_of_nil in Hin.
  - rewrite filter_cons. destruct (decide (y = x)) as [->|Hne].
    + cbn. by rewrite occurs_never.
    + apply elem_of_cons in Hin as [->|Hin]; [done|]. by apply IH.
Qed.

End TraceFacts.

(** ** Resuming *)



(** C4, as the code has it. When the checkpoint file is missing at the
    time a resume loads it, the load returns with an empty completed list,
    every step object is called with [skip] false (identifiers being
    pairwise distinct), and the completed list of the run grows from
    empty. *)
Theorem C4_missing_checkpoint_starts_fresh (h : Host) (b : EngineBuilder.t)
    (w : EngineBuilder.World) :
  EngineBuilder.checkpoint w = None →
  NoDup (Step.id <$> Schedule.iterate (EngineBuilder._schedule b)) →
  let out := EngineBuilder.run (EngineBuilder.resume h) b w in
  let invoked := EngineBuilder.calls_of (EngineBuilder.new_events w out.2) in
  Schedule.load (EngineBuilder._schedule b) (EngineBuilder.checkpoint w)
    = Ok (Schedule.set_passed (EngineBuilder._schedule b) [])
  ∧ (∀ id kw, (id, kw) ∈ invoked → kw !! "skip" = Some (VBool false))
  ∧ EngineBuilder.passed_of out.2
      `prefix_of` (Step.id <$> Schedule.iterate (EngineBuilder._schedule b)).
Proof.
  intros Hfile Hnodup. destruct w as [file evs0].
  cbn [EngineBuilder.checkpoint] in Hfile. subst file. intros out invoked.
  set (w := {| EngineBuilder.checkpoint := None; EngineBuilder.events := evs0 |}) in *.
  destruct (build_spec h true {| EngineBuilder.builder := b; EngineBuilder.world := w |})
    as (k & pre & post & Hk & Hok & _ & _ & _ & _ & Hpassed & _ & Hevs & _ & Hcpre
          & _ & _ & Hcpost & _).
  cbn [EngineBuilder.builder EngineBuilder.world] in Hk, Hok, Hpassed, Hevs, Hcpost.
  change (EngineBuilder.checkpoint w) with (@None FileContent)
    in Hok, Hpassed, Hevs, Hcpost.
  cbn [Expected.start_passed app] in Hcpost, Hpassed.
  fold (EngineBuilder.run (EngineBuilder._build h true) b w) in Hok, Hpassed, Hevs, Hcpost.
  fold (EngineBuilder.resume h) in Hok, Hpassed, Hevs, Hcpost.
  fold out in Hok, Hpassed, Hevs, Hcpost.
  split; [done|]. split.
  - intros id kw Hin. unfold invoked in Hin.
    rewrite (new_events_app _ _ _ Hevs), !calls_of_app, Hcpre, Hcpost in Hin.
    destruct (warning_obs h) as (Hcw & _ & _).
    assert (Hin' : (id, kw) ∈ Expected.calls
                     (Expected.log_stream true (EngineBuilder.self b))
                     (_delete_on_exit (EngineBuilder.self b))
                     (Schedule.iterate (EngineBuilder._schedule b)) []).
    { destruct (Expected.reached _ _ _ _); rewrite ?Hcw in Hin; cbn [app] in Hin;
        by apply (subseteq_take _ _) in Hin. }
    pose proof (expected_calls_skip (Expected.log_stream true (EngineBuilder.self b))
                  (_delete_on_exit (EngineBuilder.self b)) []
                  (Schedule.iterate (EngineBuilder._schedule b)) [] Hnodup) as Hall.
    rewrite Forall_forall in Hall. specialize (Hall _ Hin'). cbn [fst snd] in Hall.
    rewrite Hall, skip_of_step_kwargs.
    by rewrite bool_decide_eq_false_2 by apply not_elem_of_nil.
  - rewrite Hpassed, fmap_take. apply prefix_take.
Qed.

(** C4 at work: a resume of the four-step plan with no checkpoint file. *)
Lemma C4_missing_checkpoint_starts_fresh_witness :
  let h := Demo.host [] in
  let b := Demo.fresh_builder h true in
  let w := Demo.empty_world in
  let out := EngineBuilder.run (EngineBuilder.resume h) b w in
  let invoked := EngineBuilder.calls_of (EngineBuilder.new_events w out.2) in
  Schedule.load (EngineBuilder._schedule b) (EngineBuilder.checkpoint w)
    = Ok (Schedule.set_passed (EngineBuilder._schedule b) [])
  ∧ (∀ id kw, (id, kw) ∈ invoked → kw !! "skip" = Some (VBool false))
  ∧ EngineBuilder.passed_of out.2
      `prefix_of` (Step.id <$> Schedule.iterate (EngineBuilder._schedule b)).
Proof.
  apply (C4_missing_checkpoint_starts_fresh (Demo.host [])
           (Demo.fresh_builder (Demo.host []) true) Demo.empty_world).
  - reflexivity.
  - refine (bool_decide_unpack _ _). vm_compute. exact I.
Defined.

(** C4, as the specification words it, fails for a checkpoint file that is
    not JSON: the load does not leave an empty list but raises [ValueError],
    and the resume raises it in turn before any step is called. *)
Lemma C4_counterexample_not_json :
  let h := Demo.host [] in
  let b := Demo.fresh_builder h true in
  let out := EngineBuilder.run (EngineBuilder.resume h) b (Demo.world_with NotJson) in
  Schedule.load (EngineBuilder._schedule b) (Some NotJson)
    ≠ Ok (Schedule.set_passed (EngineBuilder._schedule b) [])
  ∧ out.1 = Raise ValueError
  ∧ EngineBuilder.calls_of (EngineBuilder.events (EngineBuilder.world out.2)) = [].
Proof. split; [discriminate|]. split; reflexivity. Qed.

(** ** The handlers that return and the checkpoint *)

Section ReturnedFacts.
Import EngineBuilder.

Lemma marks_app (a b : list Event) :
  Handlers.marks (a ++ b) = Handlers.marks a ++ Handlers.marks b.
Proof. apply omap_app. Qed.

Lemma before_call_marks (log : pyval) (n : nat) (m : Step._Inner) (i : Z)
    (me : Self) (s : Schedule.t) :
  Handlers.marks (Expected.before_call log n m i me s)
    = [Handlers.Called (Step.id m)].
Proof. unfold Expected.before_call. by destruct (Step.is_hidden m). Qed.

Lemma after_call_marks (h : Host) (m : Step._Inner) (s : Schedule.t) :
  Handlers.marks (Expected.after_call h m s)
    = [Handlers.Stored (Schedule._passed_steps s ++ [Step.id m])].
Proof. unfold Expected.after_call. by destruct (Step.is_hidden m). Qed.

Lemma warning_marks (h : Host) : Handlers.marks (Expected.warning h) = [].
Proof.
  unfold Expected.warning.
  destruct (check_constraints_cases h) as [->|[cause ->]]; done.
Qed.

(** The loop completes exactly the steps whose handler returns: after
    each return the identifier is appended and the list written, and the
    call that raises is followed by nothing. *)
Lemma loop_returned (h : Host) (log : pyval) (n : nat) (l : list Step._Inner) :
  ∀ (acc : Z * Args) (r : Run),
    let out := for_list l (run_step h log n) acc r in
    let ret :=
      Handlers.returned (self (builder r)) log (passed_of r) acc.2 l in
    ∃ delta : list Event,
      ret = take (length ret) l
      ∧ (length ret ≤ length l)%nat
      ∧ is_ok out.1 = bool_decide (length ret = length l)
      ∧ passed_of out.2 = passed_of r ++ (Step.id <$> ret)
      ∧ events (world out.2) = events (world r) ++ delta
      ∧ Handlers.marks delta
          = Handlers.in_turn (passed_of r) (Step.id <$> ret)
              ++ (Handlers.Called
                    <$> take 1 (drop (length ret) (Step.id <$> l))).
Proof.
  induction l as [|m l IH]; intros acc r.
  { exists []. cbn. rewrite !app_nil_r. repeat split; done. }
  cbn zeta. rewrite for_list_cons, run_step_eq.
  cbn [Handlers.returned]. unfold Schedule.is_completed, passed_of.
  destruct (Step.__call__ m _ _ _) as [args'|e].
  - match goal with |- context [for_list l _ ?a ?r'] =>
      destruct (IH a r') as (delta & Htake & Hlen & Hok & Hpassed & Hevs
                               & Hmarks) end.
    unfold passed_of in *.
    cbn [builder world self _schedule checkpoint events fst snd
         Schedule.step_completed Schedule.set_passed Schedule._passed_steps]
      in *.
    set (ret := Handlers.returned _ _ _ _ _) in *.
    exists (Expected.before_call log n m acc.1 (self (builder r))
              (_schedule (builder r))
            ++ Expected.after_call h m (_schedule (builder r)) ++ delta).
    cbn [length take fmap list_fmap drop Handlers.in_turn].
    split; [by rewrite <- Htake|]. split; [lia|]. split.
    { rewrite Hok. apply bool_decide_ext. lia. }
    split; [by rewrite Hpassed, <- app_assoc|].
    split; [by rewrite Hevs, <- !app_assoc|].
    by rewrite !marks_app, before_call_marks, after_call_marks, Hmarks.
  - cbn [builder world self _schedule checkpoint events fst snd is_ok].
    exists (Expected.before_call log n m acc.1 (self (builder r))
              (_schedule (builder r))).
    cbn [length take fmap list_fmap drop Handlers.in_turn app].
    split; [done|]. split; [lia|]. split; [done|].
    split; [by rewrite app_nil_r|]. split; [done|].
    by rewrite before_call_marks, take_0.
Qed.

(** The same for a [build] as a whole. *)
Lemma build_returned (h : Host) (b : t) (w : World) :
  let out := run (build h) b w in
  let l := Schedule.iterate (_schedule b) in
  let p := Schedule._passed_steps (_schedule b) in
  let me :=
    set_temp_dir (self b)
      (os.path.join (Engine.temp_path (_engine (self b))) ["training"]) in
  let corpora :=
    BilingualCorpus_list h (source_lang (self b)) (target_lang (self b))
      (roots (self b)) in
  let ret :=
    if decide (length corpora = 0%nat) then []
    else Handlers.returned me (Expected.log_stream false (self b)) p
           {[ "corpora" := corpora ]} l in
  ret = take (length ret) l
  ∧ (length ret ≤ length l)%nat
  ∧ passed_of out.2 = p ++ (Step.id <$> ret)
  ∧ Handlers.marks (new_events w out.2)
      = Handlers.Stored p
          :: Handlers.in_turn p (Step.id <$> ret)
          ++ (if decide (length corpora = 0%nat) then []
              else Handlers.Called
                     <$> take 1 (drop (length ret) (Step.id <$> l))).
Proof.
  cbn zeta. unfold run, build. rewrite build_eq. cbn zeta.
  cbn [builder world self _schedule].
  destruct (decide (length _ = 0%nat)) as [Hnone|Hsome].
  { unfold Expected.at_loop, passed_of.
    cbn [builder world self _schedule checkpoint events fst snd length take
         fmap list_fmap Handlers.in_turn app].
    rewrite app_nil_r. split; [done|]. split; [lia|]. split; [done|].
    by erewrite new_events_app by reflexivity. }
  rewrite training_eq. cbn zeta.
  unfold Expected.at_loop.
  cbn [builder world self _schedule checkpoint events set_temp_dir
       _delete_on_exit].
  match goal with |- context [for_list ?l (run_step h ?lg ?n) ?a ?r1] =>
    destruct (loop_returned h lg n l a r1)
      as (delta & Htake & Hlen & Hok & Hpassed & Hevs & Hmarks);
    destruct (for_list l (run_step h lg n) a r1) as [[acc'|e] r2] end;
    unfold passed_of, Expected.closing, Expected.log_stream in *;
    cbn [builder world self _schedule checkpoint events fst snd
         set_temp_dir _engine] in *.
  - split; [done|]. split; [done|]. split; [done|].
    erewrite new_events_app.
    2: { cbn [world events]. rewrite Hevs, <- !app_assoc. reflexivity. }
    rewrite !marks_app, warning_marks, Hmarks. cbn [app]. f_equal.
    by rewrite !app_nil_r.
  - split; [done|]. split; [done|]. split; [done|].
    erewrite new_events_app.
    2: { cbn [world events]. rewrite Hevs, <- !app_assoc. reflexivity. }
    rewrite !marks_app, warning_marks, Hmarks. cbn [app]. f_equal.
    by rewrite !app_nil_r.
Qed.

End ReturnedFacts.

(** ** The checkpoint during and after a build *)

(** C3, as the code has it. Let [p] be the completed list of the builder
    when [build] starts (empty for a builder just constructed), and let the
    returned steps be those whose handler returns when the steps are called
    in order (none when no corpora are found and no step is called); [N] is
    their number. The returned steps are the first [N] steps of the
    iteration, all of them when the run succeeds. The completed list ends
    as [p] followed by the identifiers of exactly these [N] steps in order,
    so it only grows. The checkpoint file is written once at the start
    and then once after each returned step and before the next step is
    called, each time with the completed list of that moment; the call of
    a step whose handler raises is followed by no write. At the end the
    file holds the final list, unless the run succeeded with
    [_delete_on_exit] set, in which case the temporary folder is gone and
    the file with it. *)
Theorem C3_checkpoint_follows_completed_steps (h : Host) (b : EngineBuilder.t)
    (w : EngineBuilder.World) :
  let out := EngineBuilder.run (EngineBuilder.build h) b w in
  let l := Schedule.iterate (EngineBuilder._schedule b) in
  let ids := Step.id <$> l in
  let p := Schedule._passed_steps (EngineBuilder._schedule b) in
  let me :=
    set_temp_dir (EngineBuilder.self b)
      (os.path.join (Engine.temp_path (_engine (EngineBuilder.self b)))
         ["training"]) in
  let corpora :=
    BilingualCorpus_list h (source_lang (EngineBuilder.self b))
      (target_lang (EngineBuilder.self b)) (roots (EngineBuilder.self b)) in
  let returned :=
    if decide (length corpora = 0%nat) then []
    else Handlers.returned me (Expected.log_stream false (EngineBuilder.self b))
           p {[ "corpora" := corpora ]} l in
  let N := length returned in
  returned = take N l
  ∧ (N ≤ length ids)%nat
  ∧ (is_ok out.1 = true → N = length ids)
  ∧ EngineBuilder.passed_of out.2 = p ++ take N ids
  ∧ Handlers.marks (EngineBuilder.new_events w out.2)
      = Handlers.Stored p
          :: Handlers.in_turn p (take N ids)
          ++ (if decide (length corpora = 0%nat) then []
              else Handlers.Called <$> take 1 (drop N ids))
  ∧ EngineBuilder.stores_of (EngineBuilder.new_events w out.2)
      = (λ j, p ++ take j ids) <$> seq 0 (S N)
  ∧ EngineBuilder.file_of out.2
      = (if is_ok out.1 && _delete_on_exit (EngineBuilder.self b) then None
         else Some (Json (p ++ take N ids))).
Proof.
  intros out l ids p me corpora returned N.
  destruct (build_returned h b w) as (Htake & Hlen & Hret & Hmarks).
  fold out l p me corpora in Htake, Hlen, Hret, Hmarks.
  fold returned in Htake, Hlen, Hret, Hmarks. fold N in Htake, Hlen, Hmarks.
  assert (Hids : Step.id <$> returned = take N ids).
  { rewrite Htake at 1. unfold ids. by rewrite fmap_take. }
  rewrite Hids in Hret, Hmarks. fold ids in Hmarks.
  destruct (build_spec h false {| EngineBuilder.builder := b; EngineBuilder.world := w |})
    as (k & pre & post & Hk & Hok & _ & _ & _ & _ & Hpassed & Hfile & Hevs & Hspre
          & _ & _ & Hspost & _).
  cbn [EngineBuilder.builder EngineBuilder.world Expected.start_passed]
    in Hk, Hok, Hpassed, Hfile, Hevs, Hspre, Hspost.
  fold (EngineBuilder.run (EngineBuilder._build h false) b w)
    in Hok, Hpassed, Hfile, Hevs.
  fold (EngineBuilder.build h) in Hok, Hpassed, Hfile, Hevs.
  fold out l p in Hok, Hpassed, Hfile, Hevs, Hspre, Hspost, Hk.
  rewrite fmap_take in Hpassed. fold ids in Hpassed.
  assert (HN : (N ≤ length ids)%nat) by (by unfold ids; rewrite length_fmap).
  assert (Hkn : k = N).
  { rewrite Hret in Hpassed. apply app_inv_head in Hpassed.
    apply (f_equal length) in Hpassed. rewrite !length_take in Hpassed.
    unfold ids in Hpassed, HN. rewrite length_fmap in Hpassed, HN. lia. }
  subst k.
  split; [done|]. split; [done|]. split.
  { intros Hyes. rewrite Hyes in Hok. symmetry in Hok.
    apply andb_true_iff in Hok as [_ Hall]. apply bool_decide_eq_true in Hall.
    by unfold ids; rewrite length_fmap. }
  split; [done|]. split; [done|]. split.
  - rewrite (new_events_app _ _ _ Hevs), !stores_of_app, Hspre, Hspost.
    destruct (warning_obs h) as (_ & Hsw & _).
    replace (EngineBuilder.stores_of
               (if Expected.reached h false (EngineBuilder.self b)
                     (EngineBuilder.checkpoint w)
                then Expected.warning h else [])) with (@nil (list string))
      by (by destruct (Expected.reached _ _ _ _)).
    rewrite take_expected_stores by done. cbn [app seq fmap list_fmap take].
    by rewrite app_nil_r.
  - rewrite Hfile. destruct (is_ok out.1 && _); [done|].
    destruct N; [|by rewrite Hret]. by rewrite take_0, app_nil_r.
Qed.

(** C3 at work: a build of the four-step plan, keeping its temporary
    folder, on a host whose aligner fails. Two handlers returned; the file
    holds their two identifiers and the third call is followed by no
    write. *)
Lemma C3_checkpoint_follows_completed_steps_witness :
  let h := Demo.failing_host [0] in
  let b := Demo.fresh_builder h true in
  let out := EngineBuilder.run (EngineBuilder.build h) b Demo.empty_world in
  out.1 = Raise (ShellError "fa_build")
  ∧ EngineBuilder.passed_of out.2 = [] ++ take 2 Demo.all_ids
  ∧ Handlers.marks (EngineBuilder.new_events Demo.empty_world out.2)
      = Handlers.Stored []
          :: Handlers.in_turn [] (take 2 Demo.all_ids)
          ++ (Handlers.Called <$> take 1 (drop 2 Demo.all_ids))
  ∧ EngineBuilder.file_of out.2 = Some (Json ([] ++ take 2 Demo.all_ids)).
Proof.
  split; [reflexivity|].
  pose proof (C3_checkpoint_follows_completed_steps (Demo.failing_host [0])
                (Demo.fresh_builder (Demo.failing_host [0]) true)
                Demo.empty_world) as (_ & _ & _ & Hpassed & Hmarks & _ & Hfile).
  split; [exact Hpassed|]. split; [exact Hmarks|]. exact Hfile.
Defined.

(** C3, as the specification words it, fails for a build that succeeds with
    [_delete_on_exit] set (the default, [debug=False]): the four steps
    completed, and no checkpoint file is left to hold their identifiers. *)
Lemma C3_counterexample_purged :
  let h := Demo.host [0] in
  let out := EngineBuilder.run (EngineBuilder.build h)
               (Demo.fresh_builder h false) Demo.empty_world in
  out.1 = Ok ()
  ∧ EngineBuilder.passed_of out.2 = Demo.all_ids
  ∧ EngineBuilder.file_of out.2 = None
  ∧ EngineBuilder.file_of out.2 ≠ Some (Json (EngineBuilder.passed_of out.2)).
Proof. repeat split; try reflexivity. vm_compute. discriminate. Qed.

(** ** Resuming a run that had completed *)

(** C9. [step_completed] appends without looking at the list. So a resume
    that finds in the checkpoint the identifiers of all the steps it
    iterates, and that succeeds, calls every step with [skip] true, appends
    every identifier once more, and writes after each step the loaded list
    followed by the identifiers appended so far: the last list written, and
    the file if the temporary folder is kept, hold every identifier
    twice. *)
Theorem C9_resume_appends_again (h : Host) (b : EngineBuilder.t)
    (w : EngineBuilder.World) :
  let ids := Step.id <$> Schedule.iterate (EngineBuilder._schedule b) in
  EngineBuilder.checkpoint w = Some (Json ids) →
  NoDup ids →
  let out := EngineBuilder.run (EngineBuilder.resume h) b w in
  is_ok out.1 = true →
  (∀ s x, Schedule._passed_steps (Schedule.step_completed s x)
          = Schedule._passed_steps s ++ [x])
  ∧ EngineBuilder.passed_of out.2 = ids ++ ids
  ∧ EngineBuilder.stores_of (EngineBuilder.new_events w out.2)
      = (λ j, ids ++ take j ids) <$> seq 1 (length ids)
  ∧ EngineBuilder.file_of out.2
      = (if _delete_on_exit (EngineBuilder.self b) then None
         else Some (Json (ids ++ ids)))
  ∧ (∀ x, x ∈ ids →
       length (filter (λ y, y = x) (EngineBuilder.passed_of out.2)) = 2%nat)
  ∧ (∀ id kw,
       (id, kw) ∈ EngineBuilder.calls_of (EngineBuilder.new_events w out.2) →
       kw !! "skip" = Some (VBool true)).
Proof.
  intros ids Hfile Hnodup. destruct w as [file evs0].
  cbn [EngineBuilder.checkpoint] in Hfile. subst file. intros out Hyes.
  set (w := {| EngineBuilder.checkpoint := Some (Json ids);
               EngineBuilder.events := evs0 |}) in *.
  destruct (build_spec h true {| EngineBuilder.builder := b; EngineBuilder.world := w |})
    as (k & pre & post & Hk & Hok & _ & _ & _ & _ & Hpassed & Hfile & Hevs & Hspre
          & Hcpre & _ & Hspost & Hcpost & _).
  cbn [EngineBuilder.builder EngineBuilder.world] in *.
  change (EngineBuilder.checkpoint w) with (Some (Json ids)) in *.
  cbn [Expected.start_passed] in *.
  fold (EngineBuilder.run (EngineBuilder._build h true) b w) in *.
  fold (EngineBuilder.resume h) in *. fold out in Hok, Hpassed, Hfile, Hevs, Hcpost.
  rewrite Hyes in Hok, Hfile, Hcpost. symmetry in Hok.
  apply andb_true_iff in Hok as [Hreach Hlen]. apply bool_decide_eq_true in Hlen.
  subst k. rewrite firstn_all in Hpassed. fold ids in Hpassed.
  destruct (warning_obs h) as (Hcw & Hsw & _).
  split; [done|]. split; [done|]. split.
  { rewrite (new_events_app _ _ _ Hevs), !stores_of_app, Hspre, Hspost, Hreach, Hsw.
    cbn [app]. rewrite take_expected_stores by done.
    by unfold ids; rewrite length_fmap. }
  split.
  { rewrite Hfile. cbn [andb]. destruct (_delete_on_exit _); [done|].
    rewrite Hpassed. destruct (length (Schedule.iterate _)) eqn:Hl; [|done].
    apply length_zero_iff_nil in Hl. unfold ids. by rewrite Hl. }
  split.
  { intros x Hx. rewrite Hpassed, filter_app, length_app.
    by rewrite (occurs_once x ids Hnodup Hx). }
  intros id kw Hin.
  rewrite (new_events_app _ _ _ Hevs), !calls_of_app, Hcpre, Hcpost, Hreach, Hcw in Hin.
  cbn [app] in Hin. apply (subseteq_take _ _) in Hin.
  pose proof (expected_calls_skip (Expected.log_stream true (EngineBuilder.self b))
                (_delete_on_exit (EngineBuilder.self b)) ids
                (Schedule.iterate (EngineBuilder._schedule b)) [] Hnodup) as Hall.
  rewrite app_nil_r in Hall. rewrite Forall_forall in Hall.
  pose proof (Hall _ Hin) as Hkw. cbn [fst snd] in Hkw.
  rewrite Hkw, skip_of_step_kwargs. do 2 f_equal.
  apply bool_decide_eq_true_2.
  apply (list_elem_of_fmap_2 fst) in Hin. cbn [fst] in Hin.
  by rewrite expected_calls_fst in Hin.
Qed.

(** C9 at work: the four-step plan resumed on the checkpoint of a complete
    run, with the temporary folder kept. *)
Lemma C9_resume_appends_again_witness :
  let h := Demo.host [0] in
  let b := Demo.fresh_builder h true in
  let w := Demo.world_with (Json Demo.all_ids) in
  let out := EngineBuilder.run (EngineBuilder.resume h) b w in
  (EngineBuilder.checkpoint w = Some (Json Demo.all_ids)
   ∧ NoDup Demo.all_ids ∧ is_ok out.1 = true)
  ∧ EngineBuilder.passed_of out.2 = Demo.all_ids ++ Demo.all_ids
  ∧ EngineBuilder.file_of out.2 = Some (Json (Demo.all_ids ++ Demo.all_ids)).
Proof.
  assert (Hnodup : NoDup Demo.all_ids).
  { refine (bool_decide_unpack _ _). vm_compute. exact I. }
  split; [split; [reflexivity|split; [exact Hnodup|reflexivity]]|].
  pose proof (C9_resume_appends_again (Demo.host [0])
                (Demo.fresh_builder (Demo.host [0]) true)
                (Demo.world_with (Json Demo.all_ids))
                eq_refl Hnodup eq_refl) as (_ & Hpassed & _ & Hfile & _).
  split; [exact Hpassed|exact Hfile].
Defined.

(** ** The hardware check in the run *)

(** C6. The check raises [HWConstraintViolated], with a cause in words,
    exactly when there is no GPU or some GPU has less than 8 GiB, and it
    raises nothing else. A run that gets as far as the check prints the
    cause once as a warning and goes on: replacing the GPU inventory by any
    other leaves the result of the run, the builder, the checkpoint file,
    the calls of the steps and the lists written to the checkpoint as they
    were. *)
Theorem C6_hardware_check_is_advisory (h : Host) :
  EngineBuilder._GB = 2 ^ 30
  ∧ ((∃ cause, EngineBuilder._check_constraints h
                 = Raise (HWConstraintViolated cause))
     ↔ list_gpus h = []
       ∨ ∃ gpu, gpu ∈ list_gpus h ∧ get_ram h gpu < 8 * EngineBuilder._GB)
  ∧ (EngineBuilder._check_constraints h = Ok ()
     ∨ ∃ cause, EngineBuilder._check_constraints h
                  = Raise (HWConstraintViolated cause) ∧ cause ≠ EmptyString)
  ∧ (∀ (resume : bool) (b : EngineBuilder.t) (w : EngineBuilder.World),
       let out := EngineBuilder.run (EngineBuilder._build h resume) b w in
       EngineBuilder.warnings_of (EngineBuilder.new_events w out.2)
         = if Expected.reached h resume (EngineBuilder.self b)
                (EngineBuilder.checkpoint w)
           then match EngineBuilder._check_constraints h with
                | Raise (HWConstraintViolated cause) =>
                    [EngineBuilder.warning_line cause]
                | _ => []
                end
           else [])
  ∧ (∀ (resume : bool) (b : EngineBuilder.t) (w : EngineBuilder.World)
       (gpus : list Z) (ram : Z → Z),
       let out := EngineBuilder.run (EngineBuilder._build h resume) b w in
       let out' :=
         EngineBuilder.run (EngineBuilder._build (with_gpus h gpus ram) resume) b w in
       out'.1 = out.1
       ∧ EngineBuilder.builder out'.2 = EngineBuilder.builder out.2
       ∧ EngineBuilder.file_of out'.2 = EngineBuilder.file_of out.2
       ∧ EngineBuilder.calls_of (EngineBuilder.new_events w out'.2)
           = EngineBuilder.calls_of (EngineBuilder.new_events w out.2)
       ∧ EngineBuilder.stores_of (EngineBuilder.new_events w out'.2)
           = EngineBuilder.stores_of (EngineBuilder.new_events w out.2)).
Proof.
  split; [reflexivity|]. split; [apply check_constraints_raises|]. split.
  { unfold EngineBuilder._check_constraints.
    case_decide as Hlen; [right; eexists; split; [reflexivity|discriminate]|].
    clear Hlen. generalize (8 * EngineBuilder._GB). intros limit.
    induction (list_gpus h) as [|gpu gpus IH];
      cbn [EngineBuilder.check_each_gpu]; [by left|].
    case_decide; [|done]. right. eexists. split; [reflexivity|discriminate]. }
  split.
  - intros resume b w out.
    destruct (build_spec h resume
                {| EngineBuilder.builder := b; EngineBuilder.world := w |})
      as (k & pre & post & _ & _ & _ & _ & _ & _ & _ & _ & Hevs & _ & _ & Hwpre
            & _ & _ & Hwpost).
    cbn [EngineBuilder.builder EngineBuilder.world] in Hevs.
    fold (EngineBuilder.run (EngineBuilder._build h resume) b w) in Hevs.
    fold out in Hevs.
    rewrite (new_events_app _ _ _ Hevs), !warnings_of_app, Hwpre, Hwpost, app_nil_r.
    destruct (warning_obs h) as (_ & _ & Hww).
    destruct (Expected.reached _ _ _ _); [by rewrite Hww|done].
  - intros resume b w gpus ram out out'.
    destruct (build_gpus_irrelevant h gpus ram resume
                {| EngineBuilder.builder := b; EngineBuilder.world := w |})
      as (pre & post & Hevs & Heq).
    cbn [EngineBuilder.builder EngineBuilder.world] in Hevs, Heq.
    fold (EngineBuilder.run (EngineBuilder._build h resume) b w) in Hevs, Heq.
    fold (EngineBuilder.run (EngineBuilder._build (with_gpus h gpus ram) resume) b w)
      in Heq.
    fold out in Hevs, Heq. fold out' in Heq.
    assert (Hevs' : EngineBuilder.events (EngineBuilder.world out'.2)
              = EngineBuilder.events w ++ pre
                  ++ (if Expected.reached h resume (EngineBuilder.self b)
                           (EngineBuilder.checkpoint w)
                      then Expected.warning (with_gpus h gpus ram) else [])
                  ++ post) by by rewrite Heq.
    rewrite (new_events_app _ _ _ Hevs), (new_events_app _ _ _ Hevs').
    rewrite !calls_of_app, !stores_of_app.
    destruct (warning_obs h) as (Hc & Hs & _).
    destruct (warning_obs (with_gpus h gpus ram)) as (Hc' & Hs' & _).
    rewrite Heq. cbn [fst snd]. unfold Expected.put_events, EngineBuilder.file_of.
    cbn [EngineBuilder.builder EngineBuilder.world EngineBuilder.checkpoint].
    destruct (Expected.reached _ _ _ _); rewrite ?Hc, ?Hs, ?Hc', ?Hs'; done.
Qed.

(** The builder of the demonstration, as the constructor returns it. *)
Example new_builder_fresh (h : Host) (debug : bool) :
  Demo.new_builder h debug None = Ok (Demo.fresh_builder h debug).
Proof. reflexivity. Qed.

(** With no GPU at all, the build of the four-step plan completes, after one
    warning. *)
Example build_without_gpu_completes :
  let h := Demo.host [] in
  let out := EngineBuilder.run (EngineBuilder.build h)
               (Demo.fresh_builder h false) Demo.empty_world in
  out.1 = Ok ()
  ∧ EngineBuilder.passed_of out.2 = Demo.all_ids
  ∧ EngineBuilder.warnings_of (EngineBuilder.events (EngineBuilder.world out.2))
      = [EngineBuilder.warning_line EngineBuilder.no_gpu_cause].
Proof. repeat split; reflexivity. Qed.

(** The plan of the builder: identifiers, optional flags and declared
    parameters of the four steps. *)
Example build_schedule_steps (h : Host) :
  (λ st, (Step.id st, Step.is_optional st, Step.is_hidden st, Step.argnames st))
    <$> EngineBuilder._build_schedule h
  = [("clean_tms", true, false, ["self"; "args"; "skip"; "log"]);
     ("preprocess", true, false, ["self"; "args"; "skip"; "log"]);
     ("train_aligner", true, false, ["self"; "args"; "skip"; "log"]);
     ("write_config", false, true, ["self"; "_"])].
Proof. reflexivity. Qed.

(** When two steps carry the same identifier, the second is called with
    [skip] true in a fresh build, although the checkpoint was empty: the
    distinctness assumed in C2 and C4 is needed. *)
Example same_id_skips_second :
  let h := Demo.host [0] in
  let b := {| EngineBuilder.self := EngineBuilder.self (Demo.fresh_builder h true);
              EngineBuilder._schedule :=
                {| Schedule._plan := Demo.twice;
                   Schedule._scheduled_steps := Step.id <$> Demo.twice;
                   Schedule._passed_steps := [] |} |} in
  let out := EngineBuilder.run (EngineBuilder.resume h) b Demo.empty_world in
  (λ c, (c.1, c.2 !! "skip"))
    <$> EngineBuilder.calls_of (EngineBuilder.events (EngineBuilder.world out.2))
  = [("work", Some (VBool false)); ("work", Some (VBool true))].
Proof. vm_compute. reflexivity. Qed.


(** * Further properties of the run *)

Section RunOutcomes.
Import EngineBuilder.

(** The calls of a run, in terms of the list with which the loop began. *)
Lemma build_calls (h : Host) (resume : bool) (b : t) (w : World) :
  let out := run (_build h resume) b w in
  let l := Schedule.iterate (_schedule b) in
  let p := Expected.start_passed resume (_schedule b) (checkpoint w) in
  ∃ j : nat,
    calls_of (new_events w out.2)
      = take j (Expected.calls (Expected.log_stream resume (self b))
                  (_delete_on_exit (self b)) l p)
    ∧ (is_ok out.1 = true → j = length l).
Proof.
  intros out l p.
  destruct (build_spec h resume {| builder := b; world := w |})
    as (k & pre & post & Hk & Hok & _ & _ & _ & _ & _ & _ & Hevs & _ & Hcpre & _
          & _ & Hcpost & _).
  cbn [builder world] in Hk, Hok, Hevs, Hcpost.
  fold (run (_build h resume) b w) in Hok, Hevs, Hcpost.
  fold out l p in Hok, Hevs, Hcpost.
  eexists. split.
  - rewrite (new_events_app _ _ _ Hevs), !calls_of_app, Hcpre, Hcpost.
    destruct (warning_obs h) as (Hcw & _ & _).
    replace (calls_of (if Expected.reached h resume (self b) (checkpoint w)
                       then Expected.warning h else []))
      with (@nil (string * Kwargs))
      by (by destruct (Expected.reached _ _ _ _)).
    reflexivity.
  - intros Hyes. rewrite Hyes in Hok |- *. symmetry in Hok.
    apply andb_true_iff in Hok as [_ Hlen]. by apply bool_decide_eq_true in Hlen.
Qed.



End RunOutcomes.




Section RunEdges.
Import EngineBuilder.

Lemma load_ok_of_not_garbage (s : Schedule.t) (file : option FileContent) :
  file ≠ Some NotJson →
  Schedule.load s file
    = Ok (Schedule.set_passed s (Expected.start_passed true s file)).
Proof. intros Hf. by destruct (load_cases s file) as [[? _]|[_ ?]]. Qed.

(** The start of [_build], up to the search for corpora. *)
Lemma build_start (h : Host) (resume : bool) (b : t) (w : World) :
  (resume = true → checkpoint w ≠ Some NotJson) →
  ∃ s1,
    (if resume then Schedule.load (_schedule b) (checkpoint w)
     else Ok (_schedule b)) = Ok s1
    ∧ Schedule._passed_steps s1
        = Expected.start_passed resume (_schedule b) (checkpoint w)
    ∧ Schedule.iterate s1 = Schedule.iterate (_schedule b).
Proof.
  intros Hfile. destruct resume.
  - rewrite load_ok_of_not_garbage by auto. by eexists.
  - by eexists.
Qed.

End RunEdges.

(** X2. No corpora. When the search for corpora finds nothing, [build] and
    [resume] raise [CorpusNotFoundInFolderException], naming the languages
    and the roots, before any step is called and before the log is opened.
    A [build] has by then replaced the checkpoint file by the completed
    list of the builder; a [resume] leaves the file as it found it. *)
Theorem X2_no_corpora_aborts (h : Host) (resume : bool) (b : EngineBuilder.t)
    (w : EngineBuilder.World) :
  let me := EngineBuilder.self b in
  BilingualCorpus_list h (source_lang me) (target_lang me) (roots me) = [] →
  (resume = true → EngineBuilder.checkpoint w ≠ Some NotJson) →
  let out := EngineBuilder.run (EngineBuilder._build h resume) b w in
  out.1 = Raise (CorpusNotFoundInFolderException
                   ("Could not find " +:+ source_lang me +:+ " > "
                      +:+ target_lang me +:+ " corpora in path "
                      +:+ str_join ", " (roots me)))
  ∧ EngineBuilder.new_events w out.2
      = (if resume then []
         else [EngineBuilder.EStore
                 (Schedule._passed_steps (EngineBuilder._schedule b))])
  ∧ EngineBuilder.file_of out.2
      = (if resume then EngineBuilder.checkpoint w
         else Some (Json (Schedule._passed_steps (EngineBuilder._schedule b)))).
Proof.
  intros me Hnone Hfile out.
  destruct (build_start h resume b w Hfile) as (s1 & Hs1 & _ & _).
  unfold out, EngineBuilder.run. rewrite build_eq.
  cbn [EngineBuilder.builder EngineBuilder.world]. rewrite Hs1.
  fold me. rewrite Hnone. cbn [length]. rewrite decide_True by done.
  cbn [fst snd]. split; [done|].
  unfold EngineBuilder.new_events, EngineBuilder.file_of, Expected.at_loop.
  cbn [EngineBuilder.builder EngineBuilder.world].
  destruct resume; cbn [EngineBuilder.world EngineBuilder.events
                        EngineBuilder.checkpoint].
  - split; [|done]. by rewrite drop_all.
  - split; [|done]. by rewrite drop_app_length.
Qed.

(** X2 at work: a host on which no corpus is found. *)
Lemma X2_no_corpora_aborts_witness :
  let h := DemoMore.barren_host in
  let b := Demo.fresh_builder h false in
  let w := Demo.world_with NotJson in
  let me := EngineBuilder.self b in
  let out := EngineBuilder.run (EngineBuilder._build h false) b w in
  out.1 = Raise (CorpusNotFoundInFolderException
                   ("Could not find " +:+ source_lang me +:+ " > "
                      +:+ target_lang me +:+ " corpora in path "
                      +:+ str_join ", " (roots me)))
  ∧ EngineBuilder.new_events w out.2
      = [EngineBuilder.EStore
           (Schedule._passed_steps (EngineBuilder._schedule b))]
  ∧ EngineBuilder.file_of out.2
      = Some (Json (Schedule._passed_steps (EngineBuilder._schedule b))).
Proof.
  exact (X2_no_corpora_aborts DemoMore.barren_host false
           (Demo.fresh_builder DemoMore.barren_host false)
           (Demo.world_with NotJson) eq_refl
           (λ H : false = true, False_rect _ (Bool.diff_false_true H))).
Defined.

(** X3. The log is closed on every path that opened it. When [_build]
    gets as far as the training (the checkpoint could be loaded and corpora
    were found), the events of a run that returns end with the closing of
    the log, and the events of a run that raises [e] end with the logging
    of that same [e] followed by the closing of the log: the exception goes
    on unchanged. Otherwise the run raises and the log was never opened. *)
Theorem X3_log_closed_and_exception_logged (h : Host) (resume : bool)
    (b : EngineBuilder.t) (w : EngineBuilder.World) :
  let out := EngineBuilder.run (EngineBuilder._build h resume) b w in
  if Expected.reached h resume (EngineBuilder.self b) (EngineBuilder.checkpoint w)
  then
    match out.1 with
    | Ok _ =>
        ∃ evs, EngineBuilder.new_events w out.2
                 = evs ++ [EngineBuilder.ELogClosed]
    | Raise e =>
        ∃ evs, EngineBuilder.new_events w out.2
                 = evs ++ [EngineBuilder.ELogException e; EngineBuilder.ELogClosed]
    end
  else
    is_ok out.1 = false
    ∧ EngineBuilder.new_events w out.2
        = (if resume then []
           else [EngineBuilder.EStore
                   (Schedule._passed_steps (EngineBuilder._schedule b))]).
Proof.
  intros out. unfold out, EngineBuilder.run. rewrite build_eq.
  cbn [EngineBuilder.builder EngineBuilder.world]. unfold Expected.reached.
  set (corpora := BilingualCorpus_list h _ _ _).
  assert (Hnew : ∀ r d,
    EngineBuilder.events (EngineBuilder.world r) = EngineBuilder.events w ++ d →
    EngineBuilder.new_events w r = d) by apply new_events_app.
  destruct resume; cbn [andb negb].
  - destruct (load_cases (EngineBuilder._schedule b) (EngineBuilder.checkpoint w))
      as [[Hf Hl]|[Hf Hl]]; rewrite Hl.
    { rewrite bool_decide_eq_true_2 by done. cbn [negb andb fst snd is_ok].
      split; [done|]. apply Hnew. by rewrite app_nil_r. }
    rewrite (bool_decide_eq_false_2 _ Hf). cbn [negb andb].
    case_decide as Hc.
    { rewrite bool_decide_eq_true_2 by done. cbn [negb fst snd is_ok].
      split; [done|]. apply Hnew. by rewrite app_nil_r. }
    rewrite bool_decide_eq_false_2 by done. cbn [negb].
    match goal with |- context [EngineBuilder.training h corpora ?lg ?n ?r1] =>
      destruct (training_spec h corpora lg n r1)
        as (k & delta & _ & _ & _ & _ & _ & _ & _ & Hevs & _);
      destruct (EngineBuilder.training h corpora lg n r1) as [[[]|e] r2] end;
      unfold Expected.closing, Expected.at_loop in *;
      cbn [EngineBuilder.builder EngineBuilder.world EngineBuilder.events
           fst snd] in *;
      eexists (Expected.prelude _ corpora ++ Expected.warning h ++ delta);
      apply Hnew;
      cbn [EngineBuilder.builder EngineBuilder.world EngineBuilder.events];
      rewrite Hevs, <- !app_assoc; reflexivity.
  - case_decide as Hc.
    { rewrite bool_decide_eq_true_2 by done. cbn [negb fst snd is_ok].
      split; [done|]. by apply Hnew. }
    rewrite bool_decide_eq_false_2 by done. cbn [negb].
    match goal with |- context [EngineBuilder.training h corpora ?lg ?n ?r1] =>
      destruct (training_spec h corpora lg n r1)
        as (k & delta & _ & _ & _ & _ & _ & _ & _ & Hevs & _);
      destruct (EngineBuilder.training h corpora lg n r1) as [[[]|e] r2] end;
      unfold Expected.closing, Expected.at_loop in *;
      cbn [EngineBuilder.builder EngineBuilder.world EngineBuilder.events
           fst snd] in *;
      eexists ([EngineBuilder.EStore _]
                 ++ Expected.prelude _ corpora ++ Expected.warning h ++ delta);
      apply Hnew;
      cbn [EngineBuilder.builder EngineBuilder.world EngineBuilder.events];
      rewrite Hevs, <- !app_assoc; reflexivity.
Qed.

(** X4. A [build] does not read the checkpoint file: whatever the file held
    before, also text that is not JSON, the run is the same in its result,
    in the builder it leaves, in the file it leaves and in its events. *)
Theorem X4_build_ignores_old_checkpoint (h : Host) (b : EngineBuilder.t)
    (file file' : option FileContent) (evs : list EngineBuilder.Event) :
  EngineBuilder.run (EngineBuilder.build h) b
    {| EngineBuilder.checkpoint := file; EngineBuilder.events := evs |}
  = EngineBuilder.run (EngineBuilder.build h) b
      {| EngineBuilder.checkpoint := file'; EngineBuilder.events := evs |}.
Proof.
  unfold EngineBuilder.run, EngineBuilder.build. rewrite !build_eq. reflexivity.
Qed.


Section PlanFacts.
Import EngineBuilder.

Lemma init_plan (plan : list Step._Inner) (fs : option (list string))
    (s : Schedule.t) :
  Schedule.__init__ plan fs = Ok s →
  Schedule._plan s = plan ∧ Schedule._passed_steps s = [].
Proof.
  unfold Schedule.__init__. destruct fs as [requested|].
  - case_decide; [done|]. by intros [= <-].
  - by intros [= <-].
Qed.

Lemma builder_plan (h : Host) (engine_name src tgt : string)
    (roots : list string) (debug : bool) (steps : option (list string))
    (split_train : bool) (b : t) :
  __init__ h engine_name src tgt roots debug steps split_train = Ok b →
  Schedule._plan (_schedule b) = _build_schedule h.
Proof.
  unfold __init__, with_plan.
  destruct (Schedule.__init__ (_build_schedule h) steps) as [s|e] eqn:Hs;
    cbn [mbind res_bind]; [|done].
  intros [= <-]. cbn [_schedule]. by apply init_plan in Hs as [? _].
Qed.

(** Whatever is scheduled, the iteration of the four-step plan ends with
    the step that writes the configuration. *)
Lemma real_plan_ends_with_config (h : Host) (s : Schedule.t) :
  Schedule._plan s = _build_schedule h →
  last (Step.id <$> Schedule.iterate s) = Some "write_config".
Proof.
  intros Hplan. rewrite iterate_filter, Hplan. unfold _build_schedule.
  rewrite fmap_last, !filter_cons, filter_nil.
  assert (H4 : Schedule.selected s
                 (Step.decorate "Writing config" false true "_write_config"
                    ["self"; "_"] 0 _write_config)) by (right; cbn; tauto).
  repeat case_decide; try contradiction; reflexivity.
Qed.

End PlanFacts.

(** X5. The configuration is written in every run that succeeds. For a
    builder made by the constructor, whatever subset of steps was requested,
    the iteration ends with the step [write_config]; so in a [build] or
    [resume] that returns, the last step called and the last identifier
    appended to the completed list are [write_config]. *)
Theorem X5_config_step_always_last (h : Host) (engine_name src tgt : string)
    (roots : list string) (debug : bool) (steps : option (list string))
    (split_train resume : bool) (b : EngineBuilder.t) (w : EngineBuilder.World) :
  EngineBuilder.__init__ h engine_name src tgt roots debug steps split_train
    = Ok b →
  let out := EngineBuilder.run (EngineBuilder._build h resume) b w in
  last (Step.id <$> Schedule.iterate (EngineBuilder._schedule b))
    = Some "write_config"
  ∧ (is_ok out.1 = true →
     last (EngineBuilder.calls_of (EngineBuilder.new_events w out.2)).*1
       = Some "write_config"
     ∧ last (EngineBuilder.passed_of out.2) = Some "write_config").
Proof.
  intros Hinit out.
  pose proof (real_plan_ends_with_config h _ (builder_plan _ _ _ _ _ _ _ _ _ Hinit))
    as Hlast.
  split; [exact Hlast|]. intros Hyes. split.
  - destruct (build_calls h resume b w) as (j & Hcalls & Hj).
    fold out in Hcalls, Hj. rewrite Hcalls, (Hj Hyes).
    rewrite fmap_take, expected_calls_fst.
    rewrite <- (length_fmap Step.id), firstn_all. exact Hlast.
  - destruct (build_spec h resume
                {| EngineBuilder.builder := b; EngineBuilder.world := w |})
      as (k & pre & post & Hk & Hok & _ & _ & _ & _ & Hpassed & _).
    cbn [EngineBuilder.builder EngineBuilder.world] in Hok, Hpassed.
    fold (EngineBuilder.run (EngineBuilder._build h resume) b w) in Hok, Hpassed.
    fold out in Hok, Hpassed. rewrite Hyes in Hok. symmetry in Hok.
    apply andb_true_iff in Hok as [_ Hlen]. apply bool_decide_eq_true in Hlen.
    rewrite Hpassed, Hlen, firstn_all, last_app, Hlast. done.
Qed.

(** X5 at work: only the preprocessing is requested. *)
Lemma X5_config_step_always_last_witness :
  let h := Demo.host [0] in
  ∃ b, EngineBuilder.__init__ h "default" "en" "fr" ["/data"] false
         (Some ["preprocess"]) true = Ok b
    ∧ last (Step.id <$> Schedule.iterate (EngineBuilder._schedule b))
        = Some "write_config".
Proof.
  eexists. split; [reflexivity|].
  refine (proj1 (X5_config_step_always_last (Demo.host [0]) "default" "en" "fr"
                   ["/data"] false (Some ["preprocess"]) true false _
                   Demo.empty_world eq_refl)).
Defined.

(** X6. Every step counted in the total of the progress display is a step
    that the loop runs: the visible steps are, in order, among the
    identifiers of the iterated steps, so the total never exceeds the number
    of steps run. *)
Theorem X6_visible_steps_are_iterated (s : Schedule.t) :
  Schedule.visible_steps s `sublist_of` (Step.id <$> Schedule.iterate s)
  ∧ (length (Schedule.visible_steps s) ≤ length (Schedule.iterate s))%nat
  ∧ (∀ x, x ∈ Schedule.visible_steps s → x ∈ Schedule._scheduled_steps s).
Proof.
  assert (Hsub : Schedule.visible_steps s
                   `sublist_of` (Step.id <$> Schedule.iterate s)).
  { unfold Schedule.visible_steps. rewrite iterate_filter.
    apply fmap_sublist, filter_sublist_of_implied.
    intros el [Hel _]. by left. }
  split; [exact Hsub|]. split.
  - apply sublist_length in Hsub. by rewrite length_fmap in Hsub.
  - intros x Hx. unfold Schedule.visible_steps in Hx.
    apply list_elem_of_fmap in Hx as (el & -> & Hel).
    by apply list_elem_of_filter in Hel as [[? _] _].
Qed.


(** * Further properties of the step object *)

Section CallFacts.




End CallFacts.




(** * Further properties of the hardware check and of the time printer *)

(** X8. The warning names the first GPU that falls short. When the GPUs
    listed before one with less than 8 GiB all have at least 8 GiB, the
    check raises [HWConstraintViolated] with the cause written for that GPU
    and its RAM; the GPUs after it are not looked at. *)
Theorem X8_first_low_gpu_named (h : Host) (good : list Z) (gpu : Z)
    (rest : list Z) :
  list_gpus h = good ++ gpu :: rest →
  Forall (λ g, 8 * EngineBuilder._GB ≤ get_ram h g) good →
  get_ram h gpu < 8 * EngineBuilder._GB →
  EngineBuilder._check_constraints h
    = Raise (HWConstraintViolated
               (EngineBuilder.low_ram_cause gpu (get_ram h gpu)
                  (8 * EngineBuilder._GB))).
Proof.
  intros Hgpus Hgood Hlow. unfold EngineBuilder._check_constraints.
  rewrite Hgpus. rewrite decide_False.
  2: { rewrite length_app. cbn. lia. }
  clear Hgpus. induction Hgood as [|g good Hg Hgood IH];
    cbn [app EngineBuilder.check_each_gpu].
  - by rewrite decide_True.
  - rewrite decide_False by lia. exact IH.
Qed.

(** X8 at work: GPU 0 has 16 GiB, GPU 1 has 4 GiB. *)
Lemma X8_first_low_gpu_named_witness :
  EngineBuilder._check_constraints (Demo.host [0; 1; 2])
    = Raise (HWConstraintViolated
               (EngineBuilder.low_ram_cause 1 (get_ram (Demo.host [0; 1; 2]) 1)
                  (8 * EngineBuilder._GB))).
Proof.
  apply (X8_first_low_gpu_named (Demo.host [0; 1; 2]) [0] 1 [2]).
  - reflexivity.
  - constructor; [|constructor]. vm_compute. discriminate.
  - reflexivity.
Defined.

Section TimeFacts.
Import PrettyTime TimeUnits.

Lemma unit_part_shown (size : Z) (suffix : string) (left : Z) :
  0 < size → unit_part size suffix left = shown (unit_count size left) suffix.
Proof.
  intros Hs. unfold unit_part, shown, unit_count.
  case_decide as Hlt; [|done].
  rewrite decide_False; [done|].
  assert (1 ≤ left / size) by (apply Z.div_le_lower_bound; lia). lia.
Qed.

Lemma unit_recompose (size left : Z) :
  0 < size → left = unit_count size left * size + unit_rest size left.
Proof.
  intros Hs. unfold unit_count, unit_rest. case_decide; [|lia].
  rewrite Z.mod_eq by lia. lia.
Qed.

Lemma unit_count_bounds (size left bound : Z) :
  0 < size → left ≤ bound * size → 0 ≤ bound →
  0 ≤ unit_count size left ≤ bound.
Proof.
  intros Hs Hb Hbound. unfold unit_count. case_decide; [|lia]. split.
  - apply Z.div_pos; lia.
  - apply Z.div_le_upper_bound; lia.
Qed.

Lemma unit_rest_nonneg (size left : Z) :
  0 < size → 0 ≤ left → 0 ≤ unit_rest size left.
Proof.
  intros Hs Hl. unfold unit_rest. case_decide; [|done].
  by apply Z.mod_pos_bound.
Qed.

End TimeFacts.

(** X9. The numbers that the time printer shows add up to the seconds it
    was given: days times 86400 plus hours times 3600 plus minutes times 60
    plus seconds. A unit is shown exactly when its number is not zero, the
    seconds always. For a duration that is not negative the hours shown are
    at most 24, the minutes and the seconds at most 60. *)
Theorem X9_time_parts_recompose (e : Z) :
  let d := TimeUnits.days e in
  let hh := TimeUnits.hours e in
  let m := TimeUnits.minutes e in
  let s := TimeUnits.seconds e in
  e = d * 86400 + hh * 3600 + m * 60 + s
  ∧ PrettyTime._pretty_print_time_parts e
      = TimeUnits.shown d "d" ++ TimeUnits.shown hh "h"
          ++ TimeUnits.shown m "m" ++ [fmt_d s +:+ "s"]
  ∧ (0 ≤ e → 0 ≤ d ∧ 0 ≤ hh ≤ 24 ∧ 0 ≤ m ≤ 60 ∧ 0 ≤ s ≤ 60)
  ∧ (e ≤ 60 → PrettyTime._pretty_print_time e = fmt_d e +:+ "s").
Proof.
  intros d hh m s. subst d hh m s.
  unfold TimeUnits.days, TimeUnits.hours, TimeUnits.minutes, TimeUnits.seconds,
    PrettyTime.after_minutes, PrettyTime.after_hours, PrettyTime.after_days.
  set (r1 := PrettyTime.unit_rest 86400 e).
  set (r2 := PrettyTime.unit_rest 3600 r1).
  set (r3 := PrettyTime.unit_rest 60 r2).
  pose proof (unit_recompose 86400 e ltac:(lia)) as H1.
  pose proof (unit_recompose 3600 r1 ltac:(lia)) as H2.
  pose proof (unit_recompose 60 r2 ltac:(lia)) as H3.
  fold r1 in H1. fold r2 in H2. fold r3 in H3.
  split; [lia|]. split.
  { rewrite parts_by_rule, !unit_part_shown by lia. reflexivity. }
  split.
  - intros He.
    pose proof (unit_rest_le 86400 e ltac:(lia)) as L1.
    pose proof (unit_rest_le 3600 r1 ltac:(lia)) as L2.
    pose proof (unit_rest_le 60 r2 ltac:(lia)) as L3.
    pose proof (unit_rest_nonneg 86400 e ltac:(lia) He) as N1.
    pose proof (unit_rest_nonneg 3600 r1 ltac:(lia) N1) as N2.
    pose proof (unit_rest_nonneg 60 r2 ltac:(lia) N2) as N3.
    fold r1 in L1, N1. fold r2 in L2, N2. fold r3 in L3, N3.
    pose proof (unit_count_bounds 3600 r1 24 ltac:(lia) ltac:(lia) ltac:(lia)).
    pose proof (unit_count_bounds 60 r2 60 ltac:(lia) ltac:(lia) ltac:(lia)).
    assert (0 ≤ TimeUnits.unit_count 86400 e).
    { unfold TimeUnits.unit_count. case_decide; [|lia]. apply Z.div_pos; lia. }
    lia.
  - intros Hsmall. unfold PrettyTime._pretty_print_time.
    rewrite parts_by_rule.
    unfold PrettyTime.after_minutes, PrettyTime.after_hours,
      PrettyTime.after_days, PrettyTime.unit_part, PrettyTime.unit_rest.
    rewrite !(decide_False (P := 86400 < e)) by lia.
    rewrite !(decide_False (P := 3600 < e)) by lia.
    rewrite !(decide_False (P := 60 < e)) by lia. reflexivity.
Qed.


(** * Further properties of the step functions *)

Section StepFunctionFacts.
Import EngineBuilder.

Lemma get_tempdir_set (me : Self) (d name : string) :
  _temp_dir me = Some d → _get_tempdir me name = Ok (os.path.join d [name]).
Proof. unfold _get_tempdir. by intros ->. Qed.

Lemma get_tempdir_unset (me : Self) (name : string) :
  _temp_dir me = None → _get_tempdir me name = Raise AttributeError.
Proof. unfold _get_tempdir. by intros ->. Qed.

End StepFunctionFacts.

(** X10. With [skip] true no step function runs its tool and none fails.
    Inside a run (the temporary folder is set), cleaning and preprocessing
    put back into the bag the corpora listed in their own folder of the
    temporary folder, and the aligner step leaves the bag as it is; the
    results do not depend on the cleaner, the preprocessor or the
    aligner. *)
Theorem X10_skip_recovers_without_tools (h : Host) (me : Self) (args : Args)
    (kw : Kwargs) (d : string) :
  _temp_dir me = Some d →
  EngineBuilder.kw_true kw "skip" = true →
  EngineBuilder._clean_tms h me args kw
    = Ok (<["corpora" :=
             BilingualCorpus_list h (source_lang me) (target_lang me)
               [os.path.join d ["clean_corpora"]]]> args)
  ∧ EngineBuilder._preprocess h me args kw
      = Ok (<["processed_corpora" :=
               BilingualCorpus_list h (source_lang me) (target_lang me)
                 [os.path.join d ["preprocessed_corpora"]]]> args)
  ∧ EngineBuilder._train_aligner h me args kw = Ok args.
Proof.
  intros Hdir Hskip.
  unfold EngineBuilder._clean_tms, EngineBuilder._preprocess,
    EngineBuilder._train_aligner.
  rewrite !(get_tempdir_set me d) by done. rewrite Hskip.
  cbn [mbind res_bind negb]. done.
Qed.

(** X10 at work: the bag of a resumed run whose cleaning is skipped. *)
Lemma X10_skip_recovers_without_tools_witness :
  let h := Demo.failing_host [0] in
  let me := set_temp_dir (EngineBuilder.self (Demo.fresh_builder h false))
              "/opt/mmt/runtime/default/tmp/training" in
  let kw := EngineBuilder.step_kwargs true (VFile "training.log" "ab") true in
  EngineBuilder._train_aligner h me ∅ kw = Ok ∅.
Proof.
  refine (proj2 (proj2 (X10_skip_recovers_without_tools (Demo.failing_host [0])
            (set_temp_dir (EngineBuilder.self
                             (Demo.fresh_builder (Demo.failing_host [0]) false))
               "/opt/mmt/runtime/default/tmp/training")
            ∅ (EngineBuilder.step_kwargs true (VFile "training.log" "ab") true)
            "/opt/mmt/runtime/default/tmp/training" eq_refl eq_refl))).
Defined.

(** X11. What a step function leaves in the bag when it returns, skipped or
    not: the cleaning has set [corpora], the preprocessing has set
    [processed_corpora], each leaving every other entry untouched, and the
    aligner step has changed nothing. *)
Theorem X11_steps_set_their_artifact (h : Host) (me : Self) (args args' : Args)
    (kw : Kwargs) :
  (EngineBuilder._clean_tms h me args kw = Ok args' →
     is_Some (args' !! "corpora")
     ∧ ∀ key, key ≠ "corpora" → args' !! key = args !! key)
  ∧ (EngineBuilder._preprocess h me args kw = Ok args' →
     is_Some (args' !! "processed_corpora")
     ∧ ∀ key, key ≠ "processed_corpora" → args' !! key = args !! key)
  ∧ (EngineBuilder._train_aligner h me args kw = Ok args' → args' = args).
Proof.
  split; [|split].
  - unfold EngineBuilder._clean_tms.
    destruct (EngineBuilder._get_tempdir me "clean_corpora") as [folder|];
      cbn [mbind res_bind]; [|done].
    destruct (EngineBuilder.kw_true kw "skip").
    + intros [= <-]. split; [by rewrite lookup_insert_eq|].
      intros key Hkey. by rewrite lookup_insert_ne.
    + destruct (args !! "corpora") as [corpora|]; [|done].
      destruct (TMCleaner_clean h _ _ corpora folder) as [cleaned|];
        cbn [mbind res_bind]; [|done].
      intros [= <-]. split; [by rewrite lookup_insert_eq|].
      intros key Hkey. by rewrite lookup_insert_ne.
  - unfold EngineBuilder._preprocess.
    destruct (EngineBuilder._get_tempdir me "preprocessed_corpora") as [folder|];
      cbn [mbind res_bind]; [|done].
    destruct (EngineBuilder.kw_true kw "skip").
    + intros [= <-]. split; [by rewrite lookup_insert_eq|].
      intros key Hkey. by rewrite lookup_insert_ne.
    + destruct (negb (truthy (args !! "corpora"))); [done|].
      destruct (TrainingPreprocessor_process h _ _ _ folder _) as [processed|];
        cbn [mbind res_bind]; [|done].
      intros [= <-]. split; [by rewrite lookup_insert_eq|].
      intros key Hkey. by rewrite lookup_insert_ne.
  - unfold EngineBuilder._train_aligner.
    destruct (negb (EngineBuilder.kw_true kw "skip")); [|by intros [= <-]].
    destruct (filter _ _) as [|[corpora|] ?]; [done| |done].
    destruct (FastAlign_build h _ _ _ corpora) as [[]|];
      cbn [mbind res_bind]; [|done].
    by intros [= <-].
Qed.

(** X11 at work: the cleaning of the demonstration host. *)
Lemma X11_steps_set_their_artifact_witness :
  let h := Demo.host [0] in
  let me := set_temp_dir (EngineBuilder.self (Demo.fresh_builder h false))
              "/tmp/training" in
  let args : Args := {[ "corpora" := [Demo.corpus_in "/data"] ]} in
  let args' : Args :=
    <["corpora" := [Demo.corpus_in "/tmp/training/clean_corpora"]]> args in
  is_Some (args' !! "corpora")
  ∧ ∀ key, key ≠ "corpora" → args' !! key = args !! key.
Proof.
  refine (proj1 (X11_steps_set_their_artifact (Demo.host [0])
            (set_temp_dir (EngineBuilder.self
                             (Demo.fresh_builder (Demo.host [0]) false))
               "/tmp/training")
            {[ "corpora" := [Demo.corpus_in "/data"] ]}
            (<["corpora" := [Demo.corpus_in "/tmp/training/clean_corpora"]]>
               {[ "corpora" := [Demo.corpus_in "/data"] ]})
            ∅) eq_refl).
Defined.

(** X12. The preprocessing refuses an empty input. Inside a run and
    without [skip], when the bag holds no corpora (the entry is missing or
    is the empty list), the step raises [CorpusNotFoundInFolderException]
    naming the two languages, whatever the preprocessor would do. *)
Theorem X12_preprocess_refuses_empty_input (h : Host) (me : Self)
    (args : Args) (kw : Kwargs) (d : string) :
  _temp_dir me = Some d →
  EngineBuilder.kw_true kw "skip" = false →
  args !! "corpora" = None ∨ args !! "corpora" = Some [] →
  EngineBuilder._preprocess h me args kw
    = Raise (CorpusNotFoundInFolderException
               ("Could not find any valid " +:+ source_lang me +:+ " > "
                  +:+ target_lang me +:+ " segments in your input.")).
Proof.
  intros Hdir Hskip Hnone. unfold EngineBuilder._preprocess.
  rewrite (get_tempdir_set me d) by done. rewrite Hskip.
  cbn [mbind res_bind]. by destruct Hnone as [-> | ->].
Qed.

(** X12 at work: an empty list of corpora. *)
Lemma X12_preprocess_refuses_empty_input_witness :
  let h := Demo.host [0] in
  let me := set_temp_dir (EngineBuilder.self (Demo.fresh_builder h false))
              "/tmp/training" in
  EngineBuilder._preprocess h me {[ "corpora" := [] ]} ∅
    = Raise (CorpusNotFoundInFolderException
               ("Could not find any valid " +:+ source_lang me +:+ " > "
                  +:+ target_lang me +:+ " segments in your input.")).
Proof.
  refine (X12_preprocess_refuses_empty_input (Demo.host [0])
            (set_temp_dir (EngineBuilder.self
                             (Demo.fresh_builder (Demo.host [0]) false))
               "/tmp/training")
            {[ "corpora" := [] ]} ∅ "/tmp/training" eq_refl eq_refl
            (or_intror eq_refl)).
Defined.

(** X13. The input of the aligner. Without [skip], the aligner is built on
    the preprocessed corpora when the bag holds some, otherwise on the
    corpora when the bag holds some, and with neither the step raises
    [IndexError]; the model folder is [aligner] under the models of the
    engine. With [skip] the aligner is not built. *)
Theorem X13_aligner_input_choice (h : Host) (me : Self) (args : Args)
    (kw : Kwargs) :
  let chosen :=
    if truthy (args !! "processed_corpora") then args !! "processed_corpora"
    else if truthy (args !! "corpora") then args !! "corpora"
    else None in
  EngineBuilder._train_aligner h me args kw =
    if EngineBuilder.kw_true kw "skip" then Ok args
    else match chosen with
         | Some corpora =>
             match FastAlign_build h
                     (os.path.join (Engine.models_path (_engine me)) ["aligner"])
                     (source_lang me) (target_lang me) corpora with
             | Ok _ => Ok args
             | Raise e => Raise e
             end
         | None => Raise IndexError
         end.
Proof.
  unfold EngineBuilder._train_aligner.
  destruct (EngineBuilder.kw_true kw "skip"); cbn [negb]; [done|].
  destruct (args !! "processed_corpora") as [[|c1 l1]|];
    destruct (args !! "corpora") as [[|c2 l2]|]; cbn; try done;
    by destruct (FastAlign_build h _ _ _ _) as [[]|].
Qed.


(** * Properties of the aligner and of the list of engines *)

Section FastAlignFacts.

Lemma str_in_char_cons (a c : Ascii.ascii) (s : string) :
  str_in (String a "") (String c s)
    = if decide (a = c) then true else str_in (String a "") s.
Proof.
  unfold str_in. cbn [String.index String.prefix].
  destruct (Ascii.ascii_dec a c) as [Hac|Hac].
  - rewrite decide_True by done. by destruct s.
  - rewrite decide_False by done.
    by destruct (String.index 0 (String a "") s).
Qed.

Lemma before_dash_region (base region : string) :
  str_in "-" base = false →
  FastAlign.before_dash (base +:+ "-" +:+ region) = base.
Proof.
  induction base as [|c base IH]; [done|].
  rewrite str_in_char_cons. case_decide as Hc; [done|]. intros Hfree.
  change (String c base +:+ "-" +:+ region)
    with (String c (base +:+ "-" +:+ region)).
  cbn [FastAlign.before_dash].
  rewrite decide_False.
  - f_equal. by apply IH.
  - intros Hn. apply Hc.
    rewrite <- (Ascii.ascii_nat_embedding c), Hn. reflexivity.
Qed.

Lemma before_dash_plain (base : string) :
  str_in "-" base = false → FastAlign.before_dash base = base.
Proof.
  induction base as [|c base IH]; [done|].
  rewrite str_in_char_cons. case_decide as Hc; [done|]. intros Hfree.
  cbn [FastAlign.before_dash].
  rewrite decide_False.
  - f_equal. by apply IH.
  - intros Hn. apply Hc.
    rewrite <- (Ascii.ascii_nat_embedding c), Hn. reflexivity.
Qed.

Lemma folders_single (l : list string) (f : string) :
  f ∈ l → (∀ x, x ∈ l → x = f) → (list_to_set l : gset string) = {[ f ]}.
Proof.
  intros Hin Hall. apply set_eq. intros x.
  rewrite elem_of_list_to_set, elem_of_singleton. split.
  - apply Hall.
  - by intros ->.
Qed.

Lemma folders_differ (l : list string) (x y : string) :
  x ∈ l → y ∈ l → x ≠ y → size (list_to_set l : gset string) ≠ 1%nat.
Proof.
  intros Hx Hy Hxy Hsize. apply Hxy.
  apply (size_singleton_inv (list_to_set l : gset string)); [done| |];
    by apply elem_of_list_to_set.
Qed.

End FastAlignFacts.

(** X14. [FastAlign.build] wipes and recreates the model folder before it
    looks at the corpora. With no corpus, or with corpora of two different
    folders, it then raises [AssertionError] and runs nothing: the old model
    is gone all the same. With corpora that all lie in one folder it runs
    [fa_build] once on that folder, with both languages, the model folder
    and [-I 4], and the outcome of the build is the outcome of that
    command. *)
Theorem X14_aligner_build_single_folder
    (shell_exec : list string → res unit) (fa : FastAlign.t)
    (corpora : list BilingualCorpus) :
  let prepared :=
    [FastAlign.Rmtree (FastAlign._model fa);
     FastAlign.Makedirs (FastAlign._model fa)] in
  (corpora = [] →
     FastAlign.build shell_exec fa corpora = (Raise AssertionError, prepared))
  ∧ (∀ c1 c2, c1 ∈ corpora → c2 ∈ corpora → get_folder c1 ≠ get_folder c2 →
       FastAlign.build shell_exec fa corpora = (Raise AssertionError, prepared))
  ∧ (∀ c, c ∈ corpora →
       (∀ c', c' ∈ corpora → get_folder c' = get_folder c) →
       let command :=
         [FastAlign._build_bin fa; "-s"; FastAlign._source_lang fa;
          "-t"; FastAlign._target_lang fa; "-i"; get_folder c;
          "-m"; FastAlign._model fa; "-I"; "4"] in
       FastAlign.build shell_exec fa corpora
         = (shell_exec command, prepared ++ [FastAlign.ShellExec command])).
Proof.
  intros prepared. split; [|split].
  - intros ->. reflexivity.
  - intros c1 c2 H1 H2 Hne. unfold FastAlign.build.
    rewrite decide_False; [done|].
    apply (folders_differ _ (get_folder c1) (get_folder c2));
      [by apply list_elem_of_fmap_2..|done].
  - intros c Hc Hall command. unfold FastAlign.build.
    rewrite (folders_single _ (get_folder c)).
    + rewrite size_singleton, decide_True by done.
      by rewrite elements_singleton.
    + by apply list_elem_of_fmap_2.
    + intros x Hx. apply list_elem_of_fmap in Hx as (c' & -> & Hc').
      by apply Hall.
Qed.

(** X14 at work: two corpora of the folder [/data]. *)
Lemma X14_aligner_build_single_folder_witness :
  let fa := FastAlign.__init__ "/opt/mmt/bin" "/opt/mmt/models" "en" "fr" in
  let command :=
    ["/opt/mmt/bin/fa_build"; "-s"; "en"; "-t"; "fr"; "-i"; "/data";
     "-m"; "/opt/mmt/models/en__fr.mdl"; "-I"; "4"] in
  FastAlign.build (λ _, Ok ()) fa [Demo.corpus_in "/data"; Demo.corpus_in "/data"]
    = (Ok (),
       [FastAlign.Rmtree "/opt/mmt/models/en__fr.mdl";
        FastAlign.Makedirs "/opt/mmt/models/en__fr.mdl";
        FastAlign.ShellExec command]).
Proof.
  refine (proj2 (proj2 (X14_aligner_build_single_folder (λ _, Ok ())
            (FastAlign.__init__ "/opt/mmt/bin" "/opt/mmt/models" "en" "fr")
            [Demo.corpus_in "/data"; Demo.corpus_in "/data"]))
            (Demo.corpus_in "/data") _ _).
  - apply list_elem_of_here.
  - intros c' Hc'.
    apply elem_of_cons in Hc' as [->|Hc']; [reflexivity|].
    apply elem_of_cons in Hc' as [->|Hc']; [reflexivity|].
    by apply elem_of_nil in Hc'.
Defined.

(** X15. The model folder of the aligner is named after the base
    languages only. For base languages without a dash, any two regions
    give the model folder [<source>__<target>.mdl] under the given folder,
    the same as without regions, while the command of the build is given
    the languages in full. *)
Theorem X15_aligner_model_ignores_region
    (BIN_DIR model src tgt region1 region2 folder : string) :
  str_in "-" src = false →
  str_in "-" tgt = false →
  let fa := FastAlign.__init__ BIN_DIR model
              (src +:+ "-" +:+ region1) (tgt +:+ "-" +:+ region2) in
  FastAlign._model fa = os.path.join model [src +:+ "__" +:+ tgt +:+ ".mdl"]
  ∧ FastAlign._model fa
      = FastAlign._model (FastAlign.__init__ BIN_DIR model src tgt)
  ∧ FastAlign.command_for fa folder
      = [os.path.join BIN_DIR ["fa_build"];
         "-s"; src +:+ "-" +:+ region1; "-t"; tgt +:+ "-" +:+ region2;
         "-i"; folder; "-m"; FastAlign._model fa; "-I"; "4"].
Proof.
  intros Hsrc Htgt fa. subst fa.
  unfold FastAlign.__init__, FastAlign.command_for.
  cbn [FastAlign._model FastAlign._source_lang FastAlign._target_lang
       FastAlign._build_bin].
  by rewrite !before_dash_region, !before_dash_plain.
Qed.

(** X15 at work: American English into Canadian French. *)
Lemma X15_aligner_model_ignores_region_witness :
  FastAlign._model
    (FastAlign.__init__ "/opt/mmt/bin" "/opt/mmt/models" "en-US" "fr-CA")
    = "/opt/mmt/models/en__fr.mdl".
Proof.
  exact (proj1 (X15_aligner_model_ignores_region "/opt/mmt/bin"
                  "/opt/mmt/models" "en" "fr" "US" "CA" "/data"
                  eq_refl eq_refl)).
Defined.

(** X16. [Engine.list] answers, in ascending order and each as often as
    the directory lists it, the entries of the engines directory that have
    a configuration file, that is those for which [Engine.exists] holds.
    Every name it answers that holds no separator passes both guards of
    [Engine.load], which goes on to read that configuration file. *)
Theorem X16_engine_list_sorted_and_loadable (c : Cli) (listdir : list string) :
  StronglySorted String.le (Engine_list c listdir)
  ∧ Engine_list c listdir
      ≡ₚ filter (λ name, Engine_exists c (Engine.__init__ c name []) = true)
           listdir
  ∧ (∀ name, name ∈ Engine_list c listdir ↔
       name ∈ listdir ∧ Engine_exists c (Engine.__init__ c name []) = true)
  ∧ (∀ name, name ∈ Engine_list c listdir → str_in os.sep name = false →
       Engine.load c name
         = (Engine.read_config c name (Engine._get_config_path c name),
            [AIsfile (Engine._get_config_path c name);
             AParse (Engine._get_config_path c name)])).
Proof.
  assert (Hmem : ∀ name, name ∈ Engine_list c listdir ↔
    name ∈ listdir ∧ isfile c (Engine._get_config_path c name) = true).
  { intros name. unfold Engine_list.
    rewrite merge_sort_Permutation, list_elem_of_filter. tauto. }
  split; [|split; [|split]].
  - apply StronglySorted_merge_sort; apply _.
  - unfold Engine_list. apply merge_sort_Permutation.
  - exact Hmem.
  - intros name Hin Hsep. apply Hmem in Hin as [_ Hfile].
    unfold Engine.load. by rewrite Hsep, Hfile.
Qed.


(** * Properties of the paths and of the loading of an engine *)

Section PathFacts.
Import os.path.

Lemma append_assoc (a b c : string) : (a +:+ b) +:+ c = a +:+ b +:+ c.
Proof.
  induction a as [|x a IH]; [done|].
  change (String x ((a +:+ b) +:+ c) = String x (a +:+ b +:+ c)).
  by rewrite IH.
Qed.

Lemma append_nonempty (a b : string) : b ≠ "" → a +:+ b ≠ "".
Proof. by destruct a. Qed.

Lemma ends_with_sep_cons (c : Ascii.ascii) (s : string) :
  s ≠ "" → ends_with_sep (String c s) = ends_with_sep s.
Proof. by destruct s. Qed.

Lemma ends_with_sep_app (a b : string) :
  b ≠ "" → ends_with_sep (a +:+ b) = ends_with_sep b.
Proof.
  intros Hb. induction a as [|x a IH]; [done|].
  change (String x a +:+ b) with (String x (a +:+ b)).
  rewrite ends_with_sep_cons; [done|]. by apply append_nonempty.
Qed.

Lemma sep_free_not_ends (s : string) :
  str_in os.sep s = false → ends_with_sep s = false.
Proof.
  induction s as [|c s IH]; [done|].
  unfold os.sep. rewrite str_in_char_cons. case_decide as Hc; [done|].
  intros Hfree. destruct (decide (s = "")) as [->|Hs].
  - unfold ends_with_sep. cbn. rewrite decide_False; [done|].
    unfold os.sep. congruence.
  - rewrite ends_with_sep_cons by done. by apply IH.
Qed.

Lemma sep_free_not_prefix (s : string) :
  str_in os.sep s = false → String.prefix os.sep s = false.
Proof.
  destruct s as [|c s]; [done|].
  unfold os.sep. rewrite str_in_char_cons. case_decide as Hc; [done|].
  intros _. cbn [String.prefix]. by destruct (Ascii.ascii_dec _ c).
Qed.

Lemma prefix_sep_in (s : string) :
  String.prefix os.sep s = true → str_in os.sep s = true.
Proof.
  destruct s as [|c s]; [done|].
  unfold os.sep. rewrite str_in_char_cons. cbn [String.prefix].
  destruct (Ascii.ascii_dec _ c) as [Hc|]; [|done]. by rewrite decide_True.
Qed.

(** Joining a directory with a component free of separators. *)
Lemma join2_free (d name : string) :
  str_in os.sep name = false →
  join2 d name = PathShape.dir_prefix d +:+ name.
Proof.
  intros Hfree. unfold join2, PathShape.dir_prefix.
  rewrite sep_free_not_prefix by done.
  case_decide; [done|]. destruct (ends_with_sep d); [done|].
  by rewrite append_assoc.
Qed.

Lemma join2_below (d name leaf : string) :
  str_in os.sep name = false → name ≠ "" → str_in os.sep leaf = false →
  join2 (PathShape.dir_prefix d +:+ name) leaf
    = PathShape.dir_prefix d +:+ name +:+ os.sep +:+ leaf.
Proof.
  intros Hfree Hname Hleaf. rewrite join2_free by done.
  unfold PathShape.dir_prefix at 1.
  rewrite decide_False by by apply append_nonempty.
  rewrite ends_with_sep_app, sep_free_not_ends by done.
  by rewrite !append_assoc.
Qed.

End PathFacts.

(** X17. Where an engine lives. For a name that is not empty and holds no
    separator, every path of the engine starts with the engines directory
    (or the runtime directory) followed by exactly one separator and the
    name: the folder of the engine, its configuration file, its data and
    models, its runtime folder, logs and temporary files; and every disk
    access of [Engine.load] is to that configuration file. A name that
    starts with a separator, which [Engine.load] refuses, makes the
    constructor place the engine at the name itself, outside both
    directories. *)
Theorem X17_engine_paths_below_directories (c : Cli) (name : string)
    (languages : list (string * string)) :
  let e := Engine.__init__ c name languages in
  let E := PathShape.dir_prefix (ENGINES_DIR c) in
  let R := PathShape.dir_prefix (RUNTIME_DIR c) in
  (str_in os.sep name = false → name ≠ "" →
     Engine.path e = E +:+ name
     ∧ Engine.config_path e = E +:+ name +:+ "/engine.xconf"
     ∧ Engine.data_path e = E +:+ name +:+ "/data"
     ∧ Engine.models_path e = E +:+ name +:+ "/models"
     ∧ Engine.runtime_path e = R +:+ name
     ∧ Engine.logs_path e = R +:+ name +:+ "/logs"
     ∧ Engine.temp_path e = R +:+ name +:+ "/tmp"
     ∧ ∀ a, a ∈ (Engine.load c name).2 →
         a = AIsfile (E +:+ name +:+ "/engine.xconf")
         ∨ a = AParse (E +:+ name +:+ "/engine.xconf"))
  ∧ (String.prefix os.sep name = true →
     Engine.path e = name ∧ Engine.runtime_path e = name
     ∧ Engine.load c name
         = (Raise (IllegalArgumentException
                     ("Invalid engine name: " +:+ dquote +:+ name +:+ dquote)),
            [])).
Proof.
  intros e E R. subst e E R. split.
  - intros Hfree Hname.
    assert (Hcfg : Engine._get_config_path c name
              = PathShape.dir_prefix (ENGINES_DIR c) +:+ name +:+ "/engine.xconf").
    { unfold Engine._get_config_path, os.path.join. cbn [foldl].
      rewrite (join2_free _ name) by done. by rewrite join2_below. }
    unfold Engine.__init__.
    cbn [Engine.path Engine.config_path Engine.data_path Engine.models_path
         Engine.runtime_path Engine.logs_path Engine.temp_path].
    unfold os.path.join. cbn [foldl].
    rewrite !(join2_free _ name) by done. rewrite !join2_below by done.
    repeat (split; [done|]).
    intros a. unfold Engine.load. rewrite Hfree, Hcfg.
    destruct (negb _); cbn [snd]; intros Ha.
    + apply list_elem_of_singleton in Ha. by left.
    + apply elem_of_cons in Ha as [->|Ha]; [by left|].
      apply list_elem_of_singleton in Ha. by right.
  - intros Habs. unfold Engine.__init__, Engine.load.
    cbn [Engine.path Engine.runtime_path]. unfold os.path.join. cbn [foldl].
    unfold os.path.join2. rewrite Habs. by rewrite prefix_sep_in.
Qed.

(** X17 at work: the engine [default] of the demonstration installation. *)
Lemma X17_engine_paths_below_directories_witness :
  Engine.path (Engine.__init__ Demo.demo_cli "default" [])
    = "/opt/mmt/engines/" +:+ "default".
Proof.
  refine (proj1 (proj1 (X17_engine_paths_below_directories Demo.demo_cli
                   "default" []) eq_refl _)).
  discriminate.
Defined.

(** X18. What [Engine.load] answers once both guards have passed. It looks
    at the configuration file and parses it, and an error of the parser is
    raised as it is. In the parsed document the engine element is the first
    element named [engine] below the root, at any depth; without one the
    call fails with [AttributeError]. With one, the engine is built under
    the requested name: from the [pair] elements, in document order, of the
    first [languages] element below the engine element when there is one,
    the attributes of the engine element being ignored, and otherwise from
    the two attributes of the engine element alone. *)
Theorem X18_load_outcomes (c : Cli) (name : string) :
  str_in os.sep name = false →
  isfile c (Engine._get_config_path c name) = true →
  let p := Engine._get_config_path c name in
  (Engine.load c name).2 = [AIsfile p; AParse p]
  ∧ (∀ e, parse c p = Raise e → (Engine.load c name).1 = Raise e)
  ∧ (∀ root, parse c p = Ok root →
       (Engine.load c name).1 =
         match minidom.getElementsByTagName root "engine" with
         | [] => Raise AttributeError
         | engine_el :: _ =>
             Ok (Engine.__init__ c name
                   match minidom.getElementsByTagName engine_el "languages" with
                   | lang_el :: _ =>
                       Engine.pair_languages
                         <$> minidom.getElementsByTagName lang_el "pair"
                   | [] =>
                       [(minidom.getAttribute engine_el "source-language",
                         minidom.getAttribute engine_el "target-language")]
                   end)
         end).
Proof.
  intros Hsep Hfile p. subst p. unfold Engine.load. rewrite Hsep, Hfile.
  cbn [negb fst snd]. split; [done|]. unfold Engine.read_config. split.
  - by intros e ->.
  - intros root ->. cbn [mbind res_bind Engine._get_child].
    destruct (minidom.getElementsByTagName root "engine") as [|engine_el ?];
      [done|].
    cbn [head mbind res_bind Engine._get_child].
    by destruct (minidom.getElementsByTagName engine_el "languages").
Qed.

(** X18 at work: the demonstration configuration. *)
Lemma X18_load_outcomes_witness :
  (Engine.load Demo.demo_cli "default").2
    = [AIsfile "/opt/mmt/engines/default/engine.xconf";
       AParse "/opt/mmt/engines/default/engine.xconf"].
Proof.
  exact (proj1 (X18_load_outcomes Demo.demo_cli "default" eq_refl eq_refl)).
Defined.


(** * Properties of the training preprocessor *)

(** X20. The command of [TrainingPreprocessor.process]. Exactly one command
    is run, whatever comes of it. After [--input] it names every folder
    that holds one of the corpora, each folder once however many corpora
    share it, so that two lists of corpora with the same folders give the
    same inputs up to their order. When the command fails its error is
    raised and no corpus is listed; when it succeeds the answer is the
    listing of the output folder, whatever the input was. *)
Theorem X20_preprocessor_command
    (mmt_javamain : string → list string → list string)
    (shell_exec : list string → res unit)
    (lister : string → string → list string → list BilingualCorpus)
    (self : TrainingPreprocessor.t) (corpora : list BilingualCorpus)
    (output_path : string) (data_path : option string) :
  let roots := TrainingPreprocessor.input_roots corpora in
  let command :=
    mmt_javamain (TrainingPreprocessor._java_main self)
      (["-s"; TrainingPreprocessor._source_lang self;
        "-t"; TrainingPreprocessor._target_lang self;
        "--output"; output_path; "--input"]
       ++ roots
       ++ match data_path with
          | Some d => ["--dev"; os.path.join d ["dev"];
                       "--test"; os.path.join d ["test"]]
          | None => []
          end) in
  let out :=
    TrainingPreprocessor.process mmt_javamain shell_exec lister self corpora
      output_path data_path in
  out.2 = [command]
  ∧ NoDup roots
  ∧ (∀ root, root ∈ roots ↔ ∃ c, c ∈ corpora ∧ get_folder c = root)
  ∧ (∀ corpora',
       (∀ folder, folder ∈ get_folder <$> corpora
                  ↔ folder ∈ get_folder <$> corpora') →
       roots ≡ₚ TrainingPreprocessor.input_roots corpora')
  ∧ (∀ e, shell_exec command = Raise e → out.1 = Raise e)
  ∧ (shell_exec command = Ok () →
       out.1 = Ok (lister (TrainingPreprocessor._source_lang self)
                     (TrainingPreprocessor._target_lang self) [output_path])).
Proof.
  intros roots command out. subst roots command out.
  unfold TrainingPreprocessor.process, TrainingPreprocessor.process_args,
    TrainingPreprocessor.DEV_FOLDER_NAME, TrainingPreprocessor.TEST_FOLDER_NAME.
  split; [by destruct (shell_exec _)|].
  split; [unfold TrainingPreprocessor.input_roots; apply NoDup_elements|].
  split.
  { intros root. unfold TrainingPreprocessor.input_roots.
    rewrite elem_of_elements, elem_of_list_to_set, list_elem_of_fmap.
    split; intros (c & H1 & H2); by exists c. }
  split.
  { intros corpora' Hsame. unfold TrainingPreprocessor.input_roots.
    apply elements_proper. intros folder.
    by rewrite !elem_of_list_to_set. }
  split.
  - by intros e ->.
  - by intros ->.
Qed.

(** X20 at work: two corpora of one folder give one input. *)
Lemma X20_preprocessor_command_witness :
  (TrainingPreprocessor.process (λ main args, "java" :: main :: args)
     (λ _, Ok ()) (λ _ _ roots, Demo.corpus_in <$> roots)
     (TrainingPreprocessor.__init__ "en" "fr")
     [Demo.corpus_in "/data"; Demo.corpus_in "/data"] "/out" None).1
    = Ok [Demo.corpus_in "/out"].
Proof.
  exact (proj2 (proj2 (proj2 (proj2 (proj2
           (X20_preprocessor_command (λ main args, "java" :: main :: args)
              (λ _, Ok ()) (λ _ _ roots, Demo.corpus_in <$> roots)
              (TrainingPreprocessor.__init__ "en" "fr")
              [Demo.corpus_in "/data"; Demo.corpus_in "/data"] "/out" None)))))
           eq_refl).
Defined.
